(** * A role-based blogging API: feed, user and auth controllers

    Shallow embedding of the request handlers of [controllers/feed.js],
    [controllers/user.js], [controllers/auth.js] and of the validation
    chains of [routes/feed.js] and [routes/auth.js].

    A handler is a function from the document store to an outcome and a
    new document store.  The body of a [try] block is a computation in a
    small state-and-exception monad ([Async]); every [await] on the
    document store is a primitive of that monad. *)

From Stdlib Require Import Ascii.
From stdpp Require Import base strings gmap list option infinite.

(** ** Data model *)

(** Document ids ([_id], [req.userId], [req.params.postId]) are the
    string form of an ObjectId. *)
Abbreviation Id := string (only parsing).

(** Modelled from the spec: the user schema ([models/user.js]) is not
    part of the sources; the spec gives the role as the closed
    enumeration USER, BLOGGER, ADMIN, with USER for a new user. *)
Inductive Role : Type := USER | BLOGGER | ADMIN.

Global Instance Role_eq_dec : EqDecision Role.
Proof. solve_decision. Defined.

(** Modelled from the spec: the post schema ([models/post.js]) is not
    part of the sources; a post has a title, a content, a required author
    reference and the [allowed] flag, false for a new post. *)
Record Post : Type := mkPost {
  title : string;
  content : string;
  author : Id;
  allowed : bool
}.

(** Modelled from the spec: a user has an email, a password hash, two
    names, a role and the list of references to its own posts, empty for
    a new user. *)
Record User : Type := mkUser {
  email : string;
  password : string;
  firstName : string;
  lastName : string;
  role : Role;
  posts : list Id
}.

(** The two collections, and whether the store can be reached while the
    request is handled. *)
Record Db : Type := mkDb {
  reachable : bool;
  postStore : gmap string Post;
  userStore : gmap string User
}.

Definition set_postStore (f : gmap string Post → gmap string Post) (db : Db) : Db :=
  mkDb (reachable db) (f (postStore db)) (userStore db).

Definition set_userStore (f : gmap string User → gmap string User) (db : Db) : Db :=
  mkDb (reachable db) (postStore db) (f (userStore db)).

(** Assignments to the fields of a loaded document. *)
Definition set_title (t : string) (p : Post) : Post :=
  mkPost t (content p) (author p) (allowed p).
Definition set_content (c : string) (p : Post) : Post :=
  mkPost (title p) c (author p) (allowed p).
Definition set_allowed (b : bool) (p : Post) : Post :=
  mkPost (title p) (content p) (author p) b.
Definition set_role (r : Role) (u : User) : User :=
  mkUser (email u) (password u) (firstName u) (lastName u) r (posts u).
Definition set_posts (l : list Id) (u : User) : User :=
  mkUser (email u) (password u) (firstName u) (lastName u) (role u) l.

(** ** Errors, responses and outcomes *)

(** One entry of [errors.array()] of the validation result. *)
Record FieldError : Type := mkFieldError {
  param : string;
  msg : string
}.

(** A JavaScript [Error] with the two properties the handlers set. *)
Record Error : Type := mkError {
  message : string;
  statusCode : option nat;
  data : list FieldError
}.

(** JSON bodies of the successful responses. *)
Inductive Body : Type :=
| posts_body (message : string) (posts : list (Id * Post)) (totalItems : nat)
| post_body (message : string) (post : Id * Post)
| created_body (message : string) (post : Id * Post) (author_id : Id) (author_name : string)
| users_body (message : string) (users : list (Id * User))
| user_body (message : string) (user : Id * User)
| registered_body (message : string) (userId : Id)
| login_body (token : string) (userId : Id).

(** How a handler ends: [res.status(s).json(b)], [next(err)] from its
    [catch] block, or an error thrown before its [try] block, which
    rejects the promise of the handler. *)
Inductive Outcome : Type :=
| Responded (status : nat) (body : Body)
| Forwarded (err : Error)
| Rejected (err : Error).

(** ** The monad of a [try] block *)

Inductive Completion (A : Type) : Type :=
| Normal (a : A)
| Thrown (e : Error).
Arguments Normal {A} a.
Arguments Thrown {A} e.

Definition Async (A : Type) : Type := Db → Completion A * Db.

Global Instance Async_ret : MRet Async := λ A a db, (Normal a, db).

Global Instance Async_bind : MBind Async := λ A B k m db,
  match m db with
  | (Normal a, db') => k a db'
  | (Thrown e, db') => (Thrown e, db')
  end.

Definition throw {A : Type} (e : Error) : Async A := λ db, (Thrown e, db).

Definition Handler : Type := Db → Outcome * Db.

(** [try { body } catch (err) { onError; next(err) }]. *)
Definition try_catch (body : Async Outcome) (onError : Error → Error) : Handler :=
  λ db,
    match body db with
    | (Normal o, db') => (o, db')
    | (Thrown e, db') => (Forwarded (onError e), db')
    end.

(** [throw error] outside of any [try] block. *)
Definition reject (e : Error) : Handler := λ db, (Rejected e, db).

(** [if (!err.statusCode) { err.statusCode = 500; }] *)
Definition default500 (e : Error) : Error :=
  match statusCode e with
  | Some _ => e
  | None => mkError (message e) (Some 500) (data e)
  end.

(** [if (!err.statusCode) { err.statusCode = 500; err.message = m; }] *)
Definition default500_message (m : string) (e : Error) : Error :=
  match statusCode e with
  | Some _ => e
  | None => mkError m (Some 500) (data e)
  end.

(** The error handler of [app.js]: [error.statusCode || 500] and the
    message of the error. *)
Definition errorResponder (e : Error) : nat * string :=
  (default 500 (statusCode e), message e).

(** [new Error(m)] followed by [error.statusCode = s]. *)
Definition httpError (m : string) (s : nat) : Error := mkError m (Some s) [].

(** Errors that the handlers do not create themselves and that carry no
    [statusCode]: a rejected store operation, reading a property of
    [null], and a document refused by its schema. *)
Definition storeError : Error := mkError "store operation failed" None [].
Definition typeError (prop : string) : Error :=
  mkError ("Cannot access property '" +:+ prop +:+ "' of null") None [].
Definition schemaError (path : string) : Error :=
  mkError ("Path `" +:+ path +:+ "` is required.") None [].
Definition duplicateKeyError : Error := mkError "E11000 duplicate key error" None [].

(** The error an outcome carries, and the status of an outcome: the one
    of the response, or the one the error handler of [app.js] gives to
    the error. *)
Definition outcome_error (o : Outcome) : option Error :=
  match o with
  | Responded _ _ => None
  | Forwarded e | Rejected e => Some e
  end.

Definition outcome_status (o : Outcome) : nat :=
  match o with
  | Responded s _ => s
  | Forwarded e | Rejected e => fst (errorResponder e)
  end.

(** ** The document store (the operations of the two models) *)

(** Every operation of a model is rejected when the store cannot be
    reached. *)
Definition store_op {A : Type} (f : Db → A * Db) : Async A := λ db,
  if reachable db then let '(a, db') := f db in (Normal a, db')
  else (Thrown storeError, db).

(** The documents of a collection, in the order in which the store
    lists them (here the order of the keys of the map). *)
Definition all_posts (db : Db) : list (Id * Post) := map_to_list (postStore db).
Definition all_users (db : Db) : list (Id * User) := map_to_list (userStore db).

(** [Post.findById(id)]; an undefined id finds nothing. *)
Definition Post_findById (id : option Id) : Async (option (Id * Post)) :=
  store_op (λ db, (i ← id; p ← postStore db !! i; Some (i, p), db)).

(** [Post.find(q).skip(n).limit(k)], the query given as a predicate. *)
Definition Post_find (q : Post → bool) (n k : nat) : Async (list (Id * Post)) :=
  store_op (λ db, (take k (drop n (filter (λ d, q d.2 = true) (all_posts db))), db)).

(** [Post.countDocuments(q)]. *)
Definition Post_countDocuments (q : Post → bool) : Async nat :=
  store_op (λ db, (length (filter (λ d, q d.2 = true) (all_posts db)), db)).

(** [doc.save()] of a post that was loaded from the store. *)
Definition Post_save (d : Id * Post) : Async (Id * Post) :=
  store_op (λ db, (d, set_postStore (insert d.1 d.2) db)).

(** The id given to a new post: one that no post of the store has. *)
Definition new_post_id (db : Db) : Id := fresh (dom (postStore db)).

(** The id given to a new user. *)
Definition new_user_id (db : Db) : Id := fresh (dom (userStore db)).

(** Modelled from the spec: [new Post({title, content, author})]
    followed by its first [save()]; the post schema is not part of the
    sources, the spec says that a new post is pending ([allowed = false])
    and that its author is required.  The new document gets a new id; a
    missing author is refused before the store is asked. *)
Definition Post_create (t c : string) (a : option Id) : Async (Id * Post) :=
  match a with
  | None => throw (schemaError "author")
  | Some a =>
      store_op (λ db,
        let i := new_post_id db in
        let p := mkPost t c a false in
        ((i, p), set_postStore (insert i p) db))
  end.

(** [Post.findByIdAndRemove(id)]. *)
Definition Post_findByIdAndRemove (id : Id) : Async (option (Id * Post)) :=
  store_op (λ db, ((λ p, (id, p)) <$> postStore db !! id, set_postStore (delete id) db)).

(** [User.findById(id)]. *)
Definition User_findById (id : option Id) : Async (option (Id * User)) :=
  store_op (λ db, (i ← id; u ← userStore db !! i; Some (i, u), db)).

(** [User.findOne({ email: e })]. *)
Definition User_findOne_email (e : string) : Async (option (Id * User)) :=
  store_op (λ db, (snd <$> list_find (λ d, email d.2 = e) (all_users db), db)).

(** [User.find()]. *)
Definition User_find : Async (list (Id * User)) :=
  store_op (λ db, (all_users db, db)).

(** [doc.save()] of a user that was loaded from the store. *)
Definition User_save (d : Id * User) : Async (Id * User) :=
  store_op (λ db, (d, set_userStore (insert d.1 d.2) db)).

(** Modelled from the spec: [new User({email, password, firstName,
    lastName})] followed by its first [save()]; the schema is not part of
    the sources, the spec says that the new user has role USER and an
    empty post list and that the uniqueness of the email is enforced when
    the record is written. *)
Definition User_create (e pw fn ln : string) : Async (Id * User) := λ db,
  if reachable db then
    match list_find (λ d : Id * User, email d.2 = e) (all_users db) with
    | Some _ => (Thrown duplicateKeyError, db)
    | None =>
        let i := new_user_id db in
        let u := mkUser e pw fn ln USER [] in
        (Normal (i, u), set_userStore (insert i u) db)
    end
  else (Thrown storeError, db).

(** ** Requests *)

(** The parts of an Express request the handlers read.  [userId] is the
    identity attached by the authentication middleware, absent for an
    anonymous request; [query_page] is the page number of the query
    string, counted from 1, absent when the request names no page;
    [validationErrors]
    is what [validationResult(req)] holds once the validation chains of
    the route have run. *)
Record Request : Type := mkRequest {
  userId : option Id;
  params_postId : Id;
  params_userId : Id;
  query_page : option positive;
  body_title : string;
  body_content : string;
  body_email : string;
  body_password : string;
  body_firstName : string;
  body_lastName : string;
  validationErrors : list FieldError
}.

(** [!req.userId]: an absent or empty string is falsy. *)
Definition falsy (o : option string) : bool :=
  match o with
  | None => true
  | Some s => bool_decide (s = "")
  end.

(** Reading [doc.role] of the result of a lookup: a [TypeError] when the
    lookup found nothing. *)
Definition role_of (u : option (Id * User)) : Async Role :=
  match u with
  | Some d => mret (role d.2)
  | None => throw (typeError "role")
  end.

(** ** Validation chains of the routes *)

(** Whitespace as the validator's [trim] sees it, on ASCII: the blank
    and the characters 9 to 13. *)
Definition is_space (a : ascii) : bool :=
  let n := nat_of_ascii a in
  bool_decide (n = 32) || (bool_decide (9 ≤ n) && bool_decide (n ≤ 13)).

Fixpoint ltrim (s : string) : string :=
  match s with
  | EmptyString => EmptyString
  | String a s' => if is_space a then ltrim s' else s
  end.

Definition rtrim (s : string) : string := String.rev (ltrim (String.rev s)).

Definition trim (s : string) : string := rtrim (ltrim s).

(** [.isLength({ min: 5 })] *)
Definition isLength_min5 (s : string) : bool := bool_decide (5 ≤ String.length s).

Definition invalid_value (p : string) : FieldError := mkFieldError p "Invalid value".

(** The chains of [POST /feed/post] and [PUT /feed/post/:postId]:
    [body("title").trim().isLength({ min: 5 })] and the same for the
    content.  The sanitizer replaces the field of the body. *)
Definition validate_post_body (req : Request) : Request :=
  let t := trim (body_title req) in
  let c := trim (body_content req) in
  mkRequest (userId req) (params_postId req) (params_userId req) (query_page req)
    t c (body_email req) (body_password req) (body_firstName req) (body_lastName req)
    (validationErrors req
       ++ (if isLength_min5 t then [] else [invalid_value "title"])
       ++ (if isLength_min5 c then [] else [invalid_value "content"])).

(** ** The feed controller ([controllers/feed.js]) *)

(** [Post.find(q).skip(n).limit(k)] and then [Post.countDocuments(q)]. *)
Definition listing (q : Post → bool) (n k : nat) : Async (list (Id * Post) * nat) :=
  posts ← Post_find q n k;
  totalItems ← Post_countDocuments q;
  mret (posts, totalItems).

(** The three queries of [getPosts] and the one of [getPostRequests]. *)
Definition q_allowed (b : bool) : Post → bool := λ p, bool_decide (allowed p = b).
Definition q_author (a : option Id) : Post → bool := λ p, bool_decide (Some (author p) = a).
Definition q_all : Post → bool := λ _, true.

Definition getPosts (req : Request) : Handler :=
  let currentPage := Pos.to_nat (default 1%positive (query_page req)) in
  let perPage := 4 in
  try_catch (
    user ← User_findById (userId req);
    '(posts, totalItems) ←
      (if falsy (userId req) then
         listing (q_allowed true) ((currentPage - 1) * perPage) perPage
       else
         r ← role_of user;
         match r with
         | USER => listing (q_allowed true) ((currentPage - 1) * perPage) perPage
         | BLOGGER => listing (q_author (userId req)) ((currentPage - 1) * perPage) perPage
         | ADMIN => listing q_all ((currentPage - 1) * perPage) perPage
         end);
    if bool_decide (length posts = 0) then
      throw (httpError "Could not find any posts." 404)
    else
      mret (Responded 200 (posts_body "Fetched posts successfully!" posts totalItems))
  ) default500.

Definition getPostRequests (req : Request) : Handler :=
  let currentPage := Pos.to_nat (default 1%positive (query_page req)) in
  let perPage := 4 in
  try_catch (
    user ← User_findById (userId req);
    r ← role_of user;
    if negb (bool_decide (r = ADMIN)) then
      throw (httpError "Not authorized." 401)
    else
      '(posts, totalItems) ← listing (q_allowed false) ((currentPage - 1) * perPage) perPage;
      if bool_decide (length posts = 0) then
        throw (httpError "Could not find any posts." 404)
      else
        mret (Responded 200 (posts_body "Fetched posts successfully!" posts totalItems))
  ) default500.

Definition allowPostRequest (req : Request) : Handler :=
  let postId := params_postId req in
  try_catch (
    post ← Post_findById (Some postId);
    user ← User_findById (userId req);
    r ← role_of user;
    if negb (bool_decide (r = ADMIN)) then
      throw (httpError "Not authorized." 401)
    else
      match post with
      | None => throw (typeError "allowed")
      | Some p =>
          post ← Post_save (p.1, set_allowed true p.2);
          postAuthor ← User_findById (Some (author post.2));
          match postAuthor with
          | None => throw (typeError "role")
          | Some a =>
              _ ← (if negb (bool_decide (role a.2 = ADMIN)) then
                     User_save (a.1, set_role BLOGGER a.2)
                   else mret a);
              mret (Responded 200 (post_body "Post request allowed successfully!" post))
          end
      end
  ) default500.

Definition getPost (req : Request) : Handler :=
  let postId := params_postId req in
  try_catch (
    post ← Post_findById (Some postId);
    match post with
    | None => throw (httpError "Could not find post." 404)
    | Some p => mret (Responded 200 (post_body "Post fetched" p))
    end
  ) (default500_message ("Could not find post with id: " +:+ postId)).

Definition createPost (req : Request) : Handler :=
  if negb (bool_decide (validationErrors req = [])) then
    reject (httpError "Validation failed, entered data is incorrect." 422)
  else
    let title := body_title req in
    let content := body_content req in
    try_catch (
      post ← Post_create title content (userId req);
      user ← User_findById (userId req);
      match user with
      | None => throw (typeError "posts")
      | Some u =>
          _ ← User_save (u.1, set_posts (posts u.2 ++ [post.1]) u.2);
          mret (Responded 201 (created_body "Post created successfully!" post u.1
                                 (firstName u.2 +:+ " " +:+ lastName u.2)))
      end
    ) default500.

Definition updatePost (req : Request) : Handler :=
  let postId := params_postId req in
  if negb (bool_decide (validationErrors req = [])) then
    reject (httpError "Validation failed, entered data is incorrect." 422)
  else
    let title := body_title req in
    let content := body_content req in
    try_catch (
      post ← Post_findById (Some postId);
      match post with
      | None => throw (httpError "Could not find post for update." 404)
      | Some p =>
          if negb (bool_decide (Some (author p.2) = userId req)) then
            throw (httpError "Not authenticated." 403)
          else
            result ← Post_save (p.1, set_allowed true (set_content content (set_title title p.2)));
            mret (Responded 200 (post_body "Post updated!" result))
      end
    ) default500.

(** [user.posts.pull(postId)]: every occurrence of the id leaves the
    array. *)
Definition pull (postId : Id) (l : list Id) : list Id :=
  filter (λ i, i ≠ postId) l.

Definition deletePost (req : Request) : Handler :=
  let postId := params_postId req in
  try_catch (
    post ← Post_findById (Some postId);
    match post with
    | None => throw (httpError "Could not find post to delete." 404)
    | Some p =>
        if negb (bool_decide (Some (author p.2) = userId req)) then
          throw (httpError "Not authenticated." 403)
        else
          _ ← Post_findByIdAndRemove postId;
          user ← User_findById (userId req);
          match user with
          | None => throw (typeError "posts")
          | Some u =>
              _ ← User_save (u.1, set_posts (pull postId (posts u.2)) u.2);
              mret (Responded 200 (post_body "Post deleted!" p))
          end
    end
  ) default500.

(** ** The user controller ([controllers/user.js]) *)

(** [!users] where [users] is an array: an array, the empty one too, is
    truthy. *)
Definition not_array {A : Type} (l : list A) : bool := false.

Definition getUsers (req : Request) : Handler :=
  try_catch (
    users ← User_find;
    if not_array users then
      throw (httpError "Could not find any users." 404)
    else
      mret (Responded 200 (users_body "Fetched users successfully!" users))
  ) default500.

Definition getUser (req : Request) : Handler :=
  let userId := params_userId req in
  try_catch (
    user ← User_findById (Some userId);
    match user with
    | None => throw (httpError "Could not find a user." 404)
    | Some u => mret (Responded 200 (user_body "User fetched" u))
    end
  ) (default500_message ("Could not find user with id: " +:+ userId)).

(** ** The auth controller ([controllers/auth.js]) and the routes *)

(** The functions of the libraries the auth code calls: the validator's
    [isEmail] and [normalizeEmail], [bcrypt.hash(pw, cost)],
    [bcrypt.compare(pw, hash)] and [jwt.sign] of the payload
    [{email, userId}] with the secret of the application. *)
Class Libraries : Type := {
  isEmail : string → bool;
  normalizeEmail : string → string;
  bcrypt_hash : string → nat → string;
  bcrypt_compare : string → string → bool;
  jwt_sign : string → string → string
}.

Section Auth.
Context {libs : Libraries}.

Definition register (req : Request) : Handler :=
  if negb (bool_decide (validationErrors req = [])) then
    reject (mkError "Validation failed." (Some 422) (validationErrors req))
  else
    let email := body_email req in
    let password := body_password req in
    let firstName := body_firstName req in
    let lastName := body_lastName req in
    try_catch (
      let hashedPw := bcrypt_hash password 12 in
      result ← User_create email hashedPw firstName lastName;
      mret (Responded 201 (registered_body "A user was created." result.1))
    ) default500.

Definition login (req : Request) : Handler :=
  let e := body_email req in
  let pw := body_password req in
  try_catch (
    user ← User_findOne_email e;
    match user with
    | None => throw (httpError "A user with this email could not be found" 401)
    | Some loadedUser =>
        let isEqual := bcrypt_compare pw (password loadedUser.2) in
        if negb isEqual then
          throw (httpError "Wrong password" 401)
        else
          let token := jwt_sign (email loadedUser.2) loadedUser.1 in
          mret (Responded 200 (login_body token loadedUser.1))
    end
  ) default500.

(** The chain of [PUT /auth/register]: [body("email").isEmail()
    .withMessage(..).custom(..).normalizeEmail()] and
    [body("password").trim().isLength({ min: 5 })].  The custom validator
    looks the email up as it was sent; a lookup that is rejected makes
    the field invalid as well. *)
Definition validate_register (req : Request) (db : Db) : Request :=
  let e := body_email req in
  let pw := trim (body_password req) in
  mkRequest (userId req) (params_postId req) (params_userId req) (query_page req)
    (body_title req) (body_content req) (normalizeEmail e) pw
    (body_firstName req) (body_lastName req)
    (validationErrors req
       ++ (if isEmail e then [] else [mkFieldError "email" "Please enter a valid email."])
       ++ match fst (User_findOne_email e db) with
          | Normal (Some _) => [mkFieldError "email" "E-Mail address already exists"]
          | Normal None => []
          | Thrown err => [mkFieldError "email" (message err)]
          end
       ++ (if isLength_min5 pw then [] else [invalid_value "password"])).

(** ** Operations: a route with its validation chains and its handler *)

Inductive Route : Type :=
| GET_feed_posts
| GET_feed_post_requests
| POST_feed_post_request
| POST_feed_post
| GET_feed_post
| PUT_feed_post
| DELETE_feed_post
| GET_users_all
| GET_users_user
| PUT_auth_register
| POST_auth_login.

Definition dispatch (r : Route) (req : Request) : Handler :=
  match r with
  | GET_feed_posts => getPosts req
  | GET_feed_post_requests => getPostRequests req
  | POST_feed_post_request => allowPostRequest req
  | POST_feed_post => createPost (validate_post_body req)
  | GET_feed_post => getPost req
  | PUT_feed_post => updatePost (validate_post_body req)
  | DELETE_feed_post => deletePost req
  | GET_users_all => getUsers req
  | GET_users_user => getUser req
  | PUT_auth_register => λ db, register (validate_register req db) db
  | POST_auth_login => login req
  end.

End Auth.

(** A request as it arrives: no validation error recorded yet. *)
Definition request (uid : option Id) (postId userId' : Id) (page : option positive)
    (t c e pw fn ln : string) : Request :=
  mkRequest uid postId userId' page t c e pw fn ln [].

(** ** Notions used to state the properties *)

(** Who looks at the feed: nobody in particular ([req.userId] falsy), or
    a stored user with its role. *)
Inductive Viewer : Type := Anonymous | Member (r : Role).

Definition viewer (db : Db) (uid : option Id) : option Viewer :=
  if falsy uid then Some Anonymous
  else u ← (i ← uid; userStore db !! i); Some (Member (role u)).

(** The posts a viewer may see. *)
Definition visible_to (v : Viewer) (uid : option Id) (p : Post) : bool :=
  match v with
  | Anonymous | Member USER => allowed p
  | Member BLOGGER => bool_decide (Some (author p) = uid)
  | Member ADMIN => true
  end.

(** Page [page] (counted from 1) of a list cut in pages of four. *)
Definition page_of (l : list (Id * Post)) (page : nat) : list (Id * Post) :=
  take 4 (drop (4 * (page - 1)) l).

(** [s.includes(sub)] *)
Fixpoint includes (sub s : string) : bool :=
  String.prefix sub s ||
  match s with
  | EmptyString => false
  | String _ s' => includes sub s'
  end.

(** A computation that leaves the store as it found it. *)
Definition read_only {A : Type} (m : Async A) : Prop := ∀ db, (m db).2 = db.

(** Three readings of the moderation rules that the code does not
    follow; each is refuted below. *)

(** The flag goes from false to true through the approval route only. *)
Definition published_only_by_approval (libs : Libraries) : Prop :=
  ∀ r req db id p p',
    postStore db !! id = Some p →
    postStore (dispatch r req db).2 !! id = Some p' →
    allowed p = false → allowed p' = true →
    r = POST_feed_post_request.

(** A lookup that finds nothing answers 404 with a message that names
    the id. *)
Definition not_found_names_id : Prop :=
  ∀ req db, reachable db = true →
    (postStore db !! params_postId req = None →
     ∃ e, (getPost req db).1 = Forwarded e ∧ statusCode e = Some 404 ∧
          includes (params_postId req) (message e) = true) ∧
    (userStore db !! params_userId req = None →
     ∃ e, (getUser req db).1 = Forwarded e ∧ statusCode e = Some 404 ∧
          includes (params_userId req) (message e) = true).

(** The user list answers 404 when the store is unreachable or empty. *)
Definition users_404_when_unavailable : Prop :=
  ∀ req db, reachable db = false ∨ userStore db = ∅ →
    outcome_status (getUsers req db).1 = 404.

(** ** Sample data *)

Definition sample_libs : Libraries := {|
  isEmail s := includes "@" s;
  normalizeEmail s := s;
  bcrypt_hash pw cost := "$2a$" +:+ pw;
  bcrypt_compare pw h := bool_decide ("$2a$" +:+ pw = h);
  jwt_sign e i := e +:+ "." +:+ i
|}.

Definition sample_author : User := mkUser "a@x.com" "$2a$secret" "A" "B" USER ["p1"].
Definition sample_admin : User := mkUser "root@x.com" "$2a$topsecret" "R" "T" ADMIN [].
Definition sample_post : Post := mkPost "Hello" "World!" "u1" false.

(** One pending post of a plain user, and an administrator. *)
Definition sample_db : Db :=
  mkDb true {[ "p1" := sample_post ]} {[ "u1" := sample_author; "u0" := sample_admin ]}.

(** The same store once the post is published. *)
Definition sample_published_db : Db :=
  mkDb true {[ "p1" := set_allowed true sample_post ]}
    {[ "u1" := set_role BLOGGER sample_author; "u0" := sample_admin ]}.

(** The same store while it cannot be reached. *)
Definition sample_offline_db : Db :=
  mkDb false (postStore sample_db) (userStore sample_db).

(** A reachable store without any user. *)
Definition sample_empty_db : Db := mkDb true ∅ ∅.

(** A request of user [uid] about post [pid], with a title and a content. *)
Definition sample_request (uid : option Id) (pid : Id) (t c : string) : Request :=
  request uid pid "u1" None t c "a@x.com" "secret" "A" "B".

(** A session: on a store with the administrator only, a user registers,
    submits a post, and the administrator approves it. *)
Definition session_start : Db := mkDb true ∅ {[ "u0" := sample_admin ]}.

Definition session_registered : Db :=
  (dispatch (libs:=sample_libs) PUT_auth_register
     (sample_request None "" "" "") session_start).2.

Definition session_posted : Db :=
  (dispatch (libs:=sample_libs) POST_feed_post
     (sample_request (Some "0") "" "Hello" "World!") session_registered).2.

Definition session_approved : Db :=
  (dispatch (libs:=sample_libs) POST_feed_post_request
     (sample_request (Some "u0") "0" "" "") session_posted).2.

(** ** Notions used to state properties of all the routes *)

(** The request with another page number. *)
Definition with_page (pg : option positive) (req : Request) : Request :=
  mkRequest (userId req) (params_postId req) (params_userId req) pg
    (body_title req) (body_content req) (body_email req) (body_password req)
    (body_firstName req) (body_lastName req) (validationErrors req).

(** The request with another email and password. *)
Definition with_credentials (e pw : string) (req : Request) : Request :=
  mkRequest (userId req) (params_postId req) (params_userId req) (query_page req)
    (body_title req) (body_content req) e pw
    (body_firstName req) (body_lastName req) (validationErrors req).

(** The request about another post. *)
Definition with_postId (pid : Id) (req : Request) : Request :=
  mkRequest (userId req) pid (params_userId req) (query_page req)
    (body_title req) (body_content req) (body_email req) (body_password req)
    (body_firstName req) (body_lastName req) (validationErrors req).

(** The statuses a route can answer with, read off its handler. *)
Definition route_statuses (r : Route) : list nat :=
  match r with
  | GET_feed_posts => [200; 404; 500]
  | GET_feed_post_requests => [200; 401; 404; 500]
  | POST_feed_post_request => [200; 401; 500]
  | POST_feed_post => [201; 422; 500]
  | GET_feed_post => [200; 404; 500]
  | PUT_feed_post => [200; 403; 404; 422; 500]
  | DELETE_feed_post => [200; 403; 404; 500]
  | GET_users_all => [200; 500]
  | GET_users_user => [200; 404; 500]
  | PUT_auth_register => [201; 422; 500]
  | POST_auth_login => [200; 401; 500]
  end.

(** The routes whose handler calls no writing operation of the store. *)
Definition reads_only (r : Route) : bool :=
  match r with
  | GET_feed_posts | GET_feed_post_requests | GET_feed_post
  | GET_users_all | GET_users_user | POST_auth_login => true
  | _ => false
  end.

(** An error without status, or with a status of the list. *)
Definition status_within (S : list nat) (e : Error) : Prop :=
  match statusCode e with
  | None => True
  | Some s => s ∈ S
  end.

(** A computation that throws only such errors. *)
Definition throws_within {A : Type} (S : list nat) (m : Async A) : Prop :=
  ∀ db e, (m db).1 = Thrown e → status_within S e.

(** The body of a handler that throws only such errors and, when it
    does not throw, responds with a status of the list. *)
Definition answers_within (S : list nat) (m : Async Outcome) : Prop :=
  throws_within S m ∧
  ∀ db o, (m db).1 = Normal o → ∃ s b, o = Responded s b ∧ s ∈ S.

(** The two directions of the author reference agree: every post is in
    the post list of its author, who is a stored user, and every id in
    the post list of a user is the id of a post of this user. *)
Definition refs_consistent (db : Db) : Prop :=
  (∀ id p, postStore db !! id = Some p →
     ∃ u, userStore db !! author p = Some u ∧ id ∈ posts u) ∧
  (∀ i u id, userStore db !! i = Some u → id ∈ posts u →
     ∃ p, postStore db !! id = Some p ∧ author p = i).

(** The identity of the request, when there is one, is a stored user. *)
Definition caller_known (db : Db) (req : Request) : Prop :=
  ∀ i, userId req = Some i → is_Some (userStore db !! i).

(** A string of whitespace only. *)
Fixpoint all_space (s : string) : bool :=
  match s with
  | EmptyString => true
  | String a s' => is_space a && all_space s'
  end.

(** Every stored post has a title and a content of five characters at
    least, with no whitespace left to trim. *)
Definition texts_valid (db : Db) : Prop :=
  ∀ id p, postStore db !! id = Some p →
    5 ≤ String.length (title p) ∧ 5 ≤ String.length (content p) ∧
    trim (title p) = title p ∧ trim (content p) = content p.

(** ** Sample libraries that lower the case of an address *)

(** ASCII lower case. *)
Definition lower_ascii (a : ascii) : ascii :=
  let n := nat_of_ascii a in
  if bool_decide (65 ≤ n) && bool_decide (n ≤ 90) then ascii_of_nat (n + 32) else a.

Fixpoint lowercase (s : string) : string :=
  match s with
  | EmptyString => EmptyString
  | String a s' => String (lower_ascii a) (lowercase s')
  end.

(** The sample libraries, with a [normalizeEmail] that lowers the case of
    the address as the validator does. *)
Definition lowercase_libs : Libraries := {|
  isEmail s := includes "@" s;
  normalizeEmail s := lowercase s;
  bcrypt_hash pw cost := "$2a$" +:+ pw;
  bcrypt_compare pw h := bool_decide ("$2a$" +:+ pw = h);
  jwt_sign e i := e +:+ "." +:+ i
|}.

(** A registration with a capital letter in the address. *)
Definition capital_registration : Request :=
  request None "" "" None "" "" "A@x.com" "secret" "A" "B".

(** ** Sample requests *)

(** The administrator approves the sample post. *)
Definition sample_approval : Request := sample_request (Some "u0") "p1" "" "".

(** The author edits the sample post. *)
Definition sample_edit : Request :=
  sample_request (Some "u1") "p1" "  Hello again " "World again".

(** The administrator tries to delete the sample post of the author. *)
Definition sample_foreign_delete : Request := sample_request (Some "u0") "p1" "" "".

(** The author deletes the sample post. *)
Definition sample_delete : Request := sample_request (Some "u1") "p1" "" "".

(** The author submits a second post. *)
Definition sample_submission : Request :=
  sample_request (Some "u1") "" "Second" "Post text".

(** An anonymous request for the first page of the feed. *)
Definition sample_visit : Request := sample_request None "" "" "".

(** A newcomer registers, with blanks around the password. *)
Definition sample_registration : Request :=
  request None "" "" None "" "" "new@x.com" " secret " "N" "C".

(** * Properties *)

(** ** Running the store operations *)

Lemma bind_run {A B : Type} (m : Async A) (k : A → Async B) (db : Db) :
  (m ≫= k) db =
  match m db with
  | (Normal a, db') => k a db'
  | (Thrown e, db') => (Thrown e, db')
  end.
Proof. reflexivity. Qed.

Lemma store_op_reachable {A : Type} (f : Db → A * Db) (db : Db) :
  reachable db = true → store_op f db = (Normal (f db).1, (f db).2).
Proof. intros H. unfold store_op. rewrite H. by destruct (f db). Qed.

Lemma store_op_unreachable {A : Type} (f : Db → A * Db) (db : Db) :
  reachable db = false → store_op f db = (Thrown storeError, db).
Proof. intros H. unfold store_op. by rewrite H. Qed.

Lemma unreachable_first {A B : Type} (f : Db → A * Db) (k : A → Async B) (db : Db) :
  reachable db = false → (store_op f ≫= k) db = (Thrown storeError, db).
Proof. intros H. by rewrite bind_run, store_op_unreachable. Qed.

Section Reachable.
Variable db : Db.
Hypothesis Hreach : reachable db = true.

Lemma User_findById_run (id : option Id) :
  User_findById id db = (Normal (i ← id; u ← userStore db !! i; Some (i, u)), db).
Proof. unfold User_findById. by rewrite store_op_reachable. Qed.

Lemma Post_findById_run (id : option Id) :
  Post_findById id db = (Normal (i ← id; p ← postStore db !! i; Some (i, p)), db).
Proof. unfold Post_findById. by rewrite store_op_reachable. Qed.

Lemma Post_save_run (d : Id * Post) :
  Post_save d db = (Normal d, set_postStore (insert d.1 d.2) db).
Proof. unfold Post_save. by rewrite store_op_reachable. Qed.

Lemma User_save_run (d : Id * User) :
  User_save d db = (Normal d, set_userStore (insert d.1 d.2) db).
Proof. unfold User_save. by rewrite store_op_reachable. Qed.

Lemma Post_findByIdAndRemove_run (id : Id) :
  Post_findByIdAndRemove id db =
  (Normal ((λ p, (id, p)) <$> postStore db !! id), set_postStore (delete id) db).
Proof. unfold Post_findByIdAndRemove. by rewrite store_op_reachable. Qed.

Lemma Post_create_run (t c : string) (a : Id) :
  Post_create t c (Some a) db =
  (Normal (new_post_id db, mkPost t c a false),
   set_postStore (insert (new_post_id db) (mkPost t c a false)) db).
Proof. unfold Post_create. by rewrite store_op_reachable. Qed.

Lemma User_find_run : User_find db = (Normal (all_users db), db).
Proof. unfold User_find. by rewrite store_op_reachable. Qed.

Lemma listing_run (q : Post → bool) (n k : nat) :
  listing q n k db =
  (Normal (take k (drop n (filter (λ d, q d.2 = true) (all_posts db))),
           length (filter (λ d, q d.2 = true) (all_posts db))), db).
Proof.
  unfold listing, Post_find, Post_countDocuments.
  rewrite !bind_run, store_op_reachable by done. simpl.
  rewrite bind_run, store_op_reachable by done. reflexivity.
Qed.

End Reachable.

(** One step of a handler on a reachable store. *)
Ltac run :=
  repeat first
    [ rewrite bind_run
    | rewrite User_findById_run by done
    | rewrite Post_findById_run by done
    | rewrite Post_save_run by done
    | rewrite User_save_run by done
    | rewrite Post_findByIdAndRemove_run by done
    | rewrite Post_create_run by done
    | rewrite User_find_run by done
    | progress simpl ].

Lemma new_post_id_fresh (db : Db) : postStore db !! new_post_id db = None.
Proof. apply not_elem_of_dom. unfold new_post_id. apply is_fresh. Qed.

Lemma new_user_id_fresh (db : Db) : userStore db !! new_user_id db = None.
Proof. apply not_elem_of_dom. unfold new_user_id. apply is_fresh. Qed.

Lemma filter_ext_bool {A : Type} (f g : A → bool) (l : list A) :
  (∀ x, f x = g x) → filter (λ x, f x = true) l = filter (λ x, g x = true) l.
Proof. intros H. apply list_filter_iff. intros x. by rewrite H. Qed.

(** ** The feed by role, in pages *)

Lemma getPosts_run (req : Request) (db : Db) (v : Viewer) :
  reachable db = true →
  viewer db (userId req) = Some v →
  let vis := filter (λ d, visible_to v (userId req) d.2 = true) (all_posts db) in
  let chunk := page_of vis (Pos.to_nat (default 1%positive (query_page req))) in
  getPosts req db =
  (if bool_decide (length chunk = 0)
   then Forwarded (httpError "Could not find any posts." 404)
   else Responded 200 (posts_body "Fetched posts successfully!" chunk (length vis)), db).
Proof.
  intros Hr Hv vis chunk. unfold getPosts, try_catch.
  rewrite bind_run, User_findById_run by done.
  rewrite bind_run.
  assert (∀ q, (∀ p, q p = visible_to v (userId req) p) →
     listing q ((Pos.to_nat (default 1%positive (query_page req)) - 1) * 4) 4 db
     = (Normal (chunk, length vis), db)) as HL.
  { intros q Hq. rewrite listing_run by done. subst chunk vis. unfold page_of.
    rewrite (filter_ext_bool (λ d, q d.2) (λ d, visible_to v (userId req) d.2))
      by (intros; apply Hq).
    by rewrite (Nat.mul_comm 4). }
  unfold viewer in Hv.
  destruct (falsy (userId req)) eqn:Hf.
  - injection Hv as <-. rewrite HL.
    + simpl. by case_bool_decide.
    + intros p. unfold q_allowed. simpl. by destruct (allowed p).
  - destruct (userId req) as [i|] eqn:Hu; [|done]. simpl in Hv. simpl.
    destruct (userStore db !! i) as [u|] eqn:Hi; [|done]. injection Hv as <-.
    simpl. rewrite bind_run. simpl. unfold mret, Async_ret at 1.
    destruct (role u) eqn:Hrole; rewrite HL.
    all: try (simpl; by case_bool_decide).
    + intros p. unfold q_allowed. simpl. by destruct (allowed p).
    + intros p. reflexivity.
    + intros p. reflexivity.
Qed.




(** The feed is empty for an anonymous viewer while the only post is
    pending. *)
Example getPosts_pending_hidden :
  (getPosts (sample_request None "" "" "") sample_db).1
  = Forwarded (httpError "Could not find any posts." 404).
Proof. reflexivity. Qed.

(** ** Approval *)

Lemma allowPostRequest_unreachable (req : Request) (db : Db) :
  reachable db = false →
  allowPostRequest req db = (Forwarded (default500 storeError), db).
Proof.
  intros H. unfold allowPostRequest, try_catch, Post_findById.
  by rewrite unreachable_first.
Qed.

Lemma allowPostRequest_unknown_viewer (req : Request) (db : Db) :
  reachable db = true →
  (i ← userId req; userStore db !! i) = None →
  allowPostRequest req db = (Forwarded (default500 (typeError "role")), db).
Proof.
  intros Hr Hv. unfold allowPostRequest, try_catch. run.
  destruct (userId req) as [i|]; simpl in *; [rewrite Hv|]; by run.
Qed.

Lemma allowPostRequest_not_admin (req : Request) (db : Db) (i : Id) (u : User) :
  reachable db = true →
  userId req = Some i → userStore db !! i = Some u → role u ≠ ADMIN →
  allowPostRequest req db = (Forwarded (httpError "Not authorized." 401), db).
Proof.
  intros Hr Hi Hu Hrole. unfold allowPostRequest, try_catch. run.
  rewrite Hi. simpl. rewrite Hu. run. by rewrite bool_decide_eq_false_2.
Qed.

Lemma allowPostRequest_no_post (req : Request) (db : Db) (i : Id) (u : User) :
  reachable db = true →
  userId req = Some i → userStore db !! i = Some u → role u = ADMIN →
  postStore db !! params_postId req = None →
  allowPostRequest req db = (Forwarded (default500 (typeError "allowed")), db).
Proof.
  intros Hr Hi Hu Hrole Hp. unfold allowPostRequest, try_catch. run.
  rewrite Hi, Hp. simpl. rewrite Hu. run. by rewrite bool_decide_eq_true_2.
Qed.

Lemma allowPostRequest_no_author (req : Request) (db : Db) (i : Id) (u : User) (p : Post) :
  reachable db = true →
  userId req = Some i → userStore db !! i = Some u → role u = ADMIN →
  postStore db !! params_postId req = Some p →
  userStore db !! author p = None →
  allowPostRequest req db =
  (Forwarded (default500 (typeError "role")),
   set_postStore (insert (params_postId req) (set_allowed true p)) db).
Proof.
  intros Hr Hi Hu Hrole Hp Ha. unfold allowPostRequest, try_catch. run.
  rewrite Hi, Hp. simpl. rewrite Hu. run.
  rewrite bool_decide_eq_true_2 by done. run. by rewrite Ha.
Qed.

Lemma allowPostRequest_admin (req : Request) (db : Db) (i : Id) (u : User)
    (p : Post) (a : User) :
  reachable db = true →
  userId req = Some i → userStore db !! i = Some u → role u = ADMIN →
  postStore db !! params_postId req = Some p →
  userStore db !! author p = Some a →
  allowPostRequest req db =
  (Responded 200 (post_body "Post request allowed successfully!"
                    (params_postId req, set_allowed true p)),
   mkDb true (<[params_postId req := set_allowed true p]> (postStore db))
     (if decide (role a = ADMIN) then userStore db
      else <[author p := set_role BLOGGER a]> (userStore db))).
Proof.
  intros Hr Hi Hu Hrole Hp Ha. unfold allowPostRequest, try_catch. run.
  rewrite Hi, Hp. simpl. rewrite Hu. run.
  rewrite bool_decide_eq_true_2 by done. run.
  rewrite Ha. simpl. unfold set_postStore. rewrite Hr.
  destruct (decide (role a = ADMIN)) as [Had|Had].
  - rewrite bool_decide_eq_true_2 by done. by run.
  - rewrite bool_decide_eq_false_2 by done. by run.
Qed.

(** C2: approval fails with status 401 whenever the role of the viewer
    is not ADMIN; for an ADMIN it sets the allowed flag of the post and
    saves the post, then loads the author of the post and, unless the
    author is an ADMIN, sets the role of the author to BLOGGER and saves
    the author.  The post is saved before the author is loaded: it stays
    saved when the author cannot be found. *)
Theorem allowPostRequest_spec (req : Request) (db : Db) (i : Id) (u : User) :
  reachable db = true →
  userId req = Some i →
  userStore db !! i = Some u →
  (role u ≠ ADMIN →
   allowPostRequest req db = (Forwarded (httpError "Not authorized." 401), db) ∧
   outcome_status (allowPostRequest req db).1 = 401) ∧
  (role u = ADMIN →
   ∀ p, postStore db !! params_postId req = Some p →
     (∀ a, userStore db !! author p = Some a →
        allowPostRequest req db =
        (Responded 200 (post_body "Post request allowed successfully!"
                          (params_postId req,
                           mkPost (title p) (content p) (author p) true)),
         mkDb true
           (<[params_postId req := mkPost (title p) (content p) (author p) true]>
              (postStore db))
           (if decide (role a = ADMIN) then userStore db
            else <[author p := mkUser (email a) (password a) (firstName a) (lastName a)
                                 BLOGGER (posts a)]> (userStore db)))) ∧
     (userStore db !! author p = None →
        (allowPostRequest req db).2
        = mkDb true
            (<[params_postId req := mkPost (title p) (content p) (author p) true]>
               (postStore db))
            (userStore db))).
Proof.
  intros Hr Hi Hu. split.
  - intros Hrole. by rewrite (allowPostRequest_not_admin req db i u).
  - intros Hrole p Hp. split.
    + intros a Ha. by apply (allowPostRequest_admin req db i u p a).
    + intros Ha. rewrite (allowPostRequest_no_author req db i u p) by done.
      unfold set_postStore. simpl. by rewrite Hr.
Qed.

(** Witness for C2: the administrator approves the pending post of a
    plain user; the post is allowed and the user is a BLOGGER
    afterwards. *)
Lemma allowPostRequest_spec_witness :
  reachable sample_db = true ∧
  userId (sample_request (Some "u0") "p1" "" "") = Some "u0" ∧
  userStore sample_db !! "u0" = Some sample_admin ∧
  allowPostRequest (sample_request (Some "u0") "p1" "" "") sample_db
  = (Responded 200 (post_body "Post request allowed successfully!"
                      ("p1", mkPost "Hello" "World!" "u1" true)),
     mkDb true {[ "p1" := mkPost "Hello" "World!" "u1" true ]}
       {[ "u1" := mkUser "a@x.com" "$2a$secret" "A" "B" BLOGGER ["p1"];
          "u0" := mkUser "root@x.com" "$2a$topsecret" "R" "T" ADMIN [] ]}).
Proof.
  split; [reflexivity|split; [reflexivity|split; [reflexivity|]]].
  destruct (allowPostRequest_spec (sample_request (Some "u0") "p1" "" "") sample_db
              "u0" sample_admin eq_refl eq_refl eq_refl) as [_ Hadmin].
  destruct (Hadmin eq_refl sample_post eq_refl) as [Hauthor _].
  rewrite (Hauthor sample_author eq_refl). vm_compute. reflexivity.
Defined.

(** A plain user who asks for the approval gets the 401 error. *)
Example allowPostRequest_by_user :
  allowPostRequest (sample_request (Some "u1") "p1" "" "") sample_db
  = (Forwarded (httpError "Not authorized." 401), sample_db).
Proof. reflexivity. Qed.

(** ** Approving twice *)

Lemma allowPostRequest_twice (req : Request) (db : Db) :
  (allowPostRequest req (allowPostRequest req db).2).2 = (allowPostRequest req db).2.
Proof.
  destruct (reachable db) eqn:Hr;
    [|by rewrite allowPostRequest_unreachable; simpl;
         rewrite ?allowPostRequest_unreachable].
  destruct (i ← userId req; userStore db !! i) as [u|] eqn:Hv;
    [|by rewrite allowPostRequest_unknown_viewer; simpl;
         rewrite ?allowPostRequest_unknown_viewer].
  destruct (userId req) as [i|] eqn:Hi; [simpl in Hv|done].
  destruct (decide (role u = ADMIN)) as [Hadm|Hadm];
    [|by rewrite (allowPostRequest_not_admin req db i u); simpl;
         rewrite ?(allowPostRequest_not_admin req db i u)].
  destruct (postStore db !! params_postId req) as [p|] eqn:Hp;
    [|by rewrite (allowPostRequest_no_post req db i u); simpl;
         rewrite ?(allowPostRequest_no_post req db i u)].
  destruct (userStore db !! author p) as [a|] eqn:Ha.
  - rewrite (allowPostRequest_admin req db i u p a) by done.
    destruct (decide (role a = ADMIN)) as [Had|Had]; cbn [snd].
    + rewrite (allowPostRequest_admin req _ i u (set_allowed true p) a)
        by (simpl; first [done | apply lookup_insert_eq]).
      rewrite decide_True by done. simpl. by rewrite insert_insert_eq.
    + assert (i ≠ author p) as Hne by (intros ->; congruence).
      rewrite (allowPostRequest_admin req _ i u (set_allowed true p) (set_role BLOGGER a))
        by (simpl; first [done | apply lookup_insert_eq | by rewrite lookup_insert_ne]).
      rewrite decide_False by done. simpl. by rewrite !insert_insert_eq.
  - rewrite (allowPostRequest_no_author req db i u p) by done. simpl.
    rewrite (allowPostRequest_no_author req _ i u (set_allowed true p))
      by (simpl; first [done | apply lookup_insert_eq]).
    unfold set_postStore. simpl. by rewrite insert_insert_eq.
Qed.

(** C4: approval is idempotent: for every post and every ADMIN viewer,
    approving twice in a row leaves the post store and the user store as
    approving once does, with the post allowed and its author a BLOGGER
    or an ADMIN. *)
Theorem allowPostRequest_idempotent (req : Request) (db : Db) (i : Id) (u : User) :
  userId req = Some i →
  userStore db !! i = Some u →
  role u = ADMIN →
  let db1 := (allowPostRequest req db).2 in
  let db2 := (allowPostRequest req db1).2 in
  db2 = db1 ∧
  (reachable db = true →
   ∀ p a, postStore db !! params_postId req = Some p →
          userStore db !! author p = Some a →
          ∃ p' a', postStore db2 !! params_postId req = Some p' ∧ allowed p' = true ∧
                   userStore db2 !! author p = Some a' ∧
                   (role a' = BLOGGER ∨ role a' = ADMIN)).
Proof.
  intros Hi Hu Hadm db1 db2.
  assert (db2 = db1) as Heq by apply allowPostRequest_twice.
  split; [done|].
  intros Hr p a Hp Ha. rewrite Heq. subst db1.
  rewrite (allowPostRequest_admin req db i u p a) by done.
  exists (set_allowed true p).
  destruct (decide (role a = ADMIN)) as [Had|Had]; simpl; rewrite lookup_insert_eq.
  - exists a. auto.
  - exists (set_role BLOGGER a). rewrite lookup_insert_eq. auto.
Qed.

(** Witness for C4: the administrator approves the pending sample post
    twice. *)
Lemma allowPostRequest_idempotent_witness :
  userId (sample_request (Some "u0") "p1" "" "") = Some "u0" ∧
  userStore sample_db !! "u0" = Some sample_admin ∧
  role sample_admin = ADMIN ∧
  (allowPostRequest (sample_request (Some "u0") "p1" "" "")
     (allowPostRequest (sample_request (Some "u0") "p1" "" "") sample_db).2).2
  = (allowPostRequest (sample_request (Some "u0") "p1" "" "") sample_db).2.
Proof.
  split; [reflexivity|split; [reflexivity|split; [reflexivity|]]].
  apply (allowPostRequest_idempotent (sample_request (Some "u0") "p1" "" "") sample_db
           "u0" sample_admin eq_refl eq_refl eq_refl).
Defined.

(** ** Validation of the title and the content *)

Lemma validate_post_body_invalid (req : Request) :
  String.length (trim (body_title req)) < 5 ∨ String.length (trim (body_content req)) < 5 →
  validationErrors (validate_post_body req) ≠ [].
Proof.
  intros H. unfold validate_post_body, isLength_min5. simpl.
  intros Heq. apply app_eq_nil in Heq as [_ Heq]. apply app_eq_nil in Heq as [H1 H2].
  destruct H as [H|H].
  - rewrite bool_decide_eq_false_2 in H1 by lia. done.
  - rewrite bool_decide_eq_false_2 in H2 by lia. done.
Qed.

Lemma validate_post_body_valid (req : Request) :
  validationErrors req = [] →
  5 ≤ String.length (trim (body_title req)) →
  5 ≤ String.length (trim (body_content req)) →
  validationErrors (validate_post_body req) = [].
Proof.
  intros H Ht Hc. unfold validate_post_body, isLength_min5. simpl.
  by rewrite H, !bool_decide_eq_true_2.
Qed.

Lemma updatePost_invalid (req : Request) (db : Db) :
  validationErrors req ≠ [] →
  updatePost req db =
  (Rejected (httpError "Validation failed, entered data is incorrect." 422), db).
Proof. intros H. unfold updatePost. by rewrite bool_decide_eq_false_2. Qed.

Lemma createPost_invalid (req : Request) (db : Db) :
  validationErrors req ≠ [] →
  createPost req db =
  (Rejected (httpError "Validation failed, entered data is incorrect." 422), db).
Proof. intros H. unfold createPost. by rewrite bool_decide_eq_false_2. Qed.

(** ** Editing a post *)

Lemma updatePost_unreachable (req : Request) (db : Db) :
  validationErrors req = [] → reachable db = false →
  updatePost req db = (Forwarded (default500 storeError), db).
Proof.
  intros Hv H. unfold updatePost. rewrite bool_decide_eq_true_2 by done. simpl.
  unfold try_catch, Post_findById. by rewrite unreachable_first.
Qed.

Lemma updatePost_no_post (req : Request) (db : Db) :
  validationErrors req = [] → reachable db = true →
  postStore db !! params_postId req = None →
  updatePost req db = (Forwarded (httpError "Could not find post for update." 404), db).
Proof.
  intros Hv Hr Hp. unfold updatePost. rewrite bool_decide_eq_true_2 by done. simpl.
  unfold try_catch. run. by rewrite Hp.
Qed.

Lemma updatePost_not_author (req : Request) (db : Db) (p : Post) :
  validationErrors req = [] → reachable db = true →
  postStore db !! params_postId req = Some p →
  Some (author p) ≠ userId req →
  updatePost req db = (Forwarded (httpError "Not authenticated." 403), db).
Proof.
  intros Hv Hr Hp Ha. unfold updatePost. rewrite bool_decide_eq_true_2 by done. simpl.
  unfold try_catch. run. rewrite Hp. simpl. by rewrite bool_decide_eq_false_2.
Qed.

Lemma updatePost_author (req : Request) (db : Db) (p : Post) :
  validationErrors req = [] → reachable db = true →
  postStore db !! params_postId req = Some p →
  Some (author p) = userId req →
  updatePost req db =
  (Responded 200 (post_body "Post updated!"
                    (params_postId req, mkPost (body_title req) (body_content req) (author p) true)),
   set_postStore (insert (params_postId req)
                    (mkPost (body_title req) (body_content req) (author p) true)) db).
Proof.
  intros Hv Hr Hp Ha. unfold updatePost. rewrite bool_decide_eq_true_2 by done. simpl.
  unfold try_catch. run. rewrite Hp. simpl. rewrite bool_decide_eq_true_2 by done. by run.
Qed.

(** C5: an edit fails with 422 if the title or the content trims to
    fewer than five characters, with 404 if no post has the id, with 403
    if the editor is not the author of the post; otherwise it overwrites
    the title and the content and sets the allowed flag to true, whatever
    the flag was. *)
Theorem updatePost_spec (req : Request) (db : Db) :
  validationErrors req = [] →
  let t := trim (body_title req) in
  let c := trim (body_content req) in
  let postId := params_postId req in
  let run := updatePost (validate_post_body req) db in
  (String.length t < 5 ∨ String.length c < 5 →
   run = (Rejected (httpError "Validation failed, entered data is incorrect." 422), db)) ∧
  (5 ≤ String.length t → 5 ≤ String.length c → reachable db = true →
   (postStore db !! postId = None →
    run = (Forwarded (httpError "Could not find post for update." 404), db)) ∧
   (∀ p, postStore db !! postId = Some p →
      (Some (author p) ≠ userId req →
       run = (Forwarded (httpError "Not authenticated." 403), db)) ∧
      (Some (author p) = userId req →
       run = (Responded 200 (post_body "Post updated!" (postId, mkPost t c (author p) true)),
              mkDb true (<[postId := mkPost t c (author p) true]> (postStore db))
                (userStore db))))).
Proof.
  intros Hv t c postId run. split.
  - intros H. apply updatePost_invalid. by apply validate_post_body_invalid.
  - intros Ht Hc Hr. pose proof (validate_post_body_valid req Hv Ht Hc) as Hok.
    split; [|intros p Hp; split].
    + intros Hp. by apply updatePost_no_post.
    + intros Ha. by apply (updatePost_not_author _ _ p).
    + intros Ha. subst run. rewrite (updatePost_author _ _ p) by done.
      unfold set_postStore. by rewrite Hr.
Qed.

(** Witness for C5: the author edits the pending sample post, with
    blanks around the new title. *)
Lemma updatePost_spec_witness :
  validationErrors (sample_request (Some "u1") "p1" "  Hello again " "World again") = [] ∧
  updatePost (validate_post_body (sample_request (Some "u1") "p1" "  Hello again " "World again"))
    sample_db
  = (Responded 200 (post_body "Post updated!"
                      ("p1", mkPost "Hello again" "World again" "u1" true)),
     mkDb true {[ "p1" := mkPost "Hello again" "World again" "u1" true ]}
       (userStore sample_db)).
Proof.
  split; [reflexivity|].
  destruct (updatePost_spec (sample_request (Some "u1") "p1" "  Hello again " "World again")
              sample_db eq_refl) as [_ Hvalid].
  destruct (Hvalid ltac:(vm_compute; lia) ltac:(vm_compute; lia) eq_refl) as [_ Hfound].
  destruct (Hfound sample_post eq_refl) as [_ Hauthor].
  rewrite (Hauthor eq_refl). vm_compute. reflexivity.
Defined.

(** C10: in the edit and in the creation of a post the validation comes
    before the lookup of the post and the check of the author: a request
    whose title or content trims to fewer than five characters fails with
    422, never with 404 or 403, whatever the store holds and whoever
    asks, and the store is not written. *)
Theorem validation_precedes_lookup (req : Request) (db : Db) :
  String.length (trim (body_title req)) < 5 ∨ String.length (trim (body_content req)) < 5 →
  let e := httpError "Validation failed, entered data is incorrect." 422 in
  updatePost (validate_post_body req) db = (Rejected e, db) ∧
  createPost (validate_post_body req) db = (Rejected e, db) ∧
  statusCode e = Some 422.
Proof.
  intros H e. apply validate_post_body_invalid in H.
  split; [by apply updatePost_invalid|]. split; [by apply createPost_invalid|done].
Qed.

(** Witness for C10: a title of blanks, sent by somebody who is not the
    author, about a post that does not exist. *)
Lemma validation_precedes_lookup_witness :
  (String.length (trim (body_title (sample_request (Some "u0") "p9" "      " "World again"))) < 5 ∨
   String.length (trim (body_content (sample_request (Some "u0") "p9" "      " "World again"))) < 5) ∧
  updatePost (validate_post_body (sample_request (Some "u0") "p9" "      " "World again"))
    sample_db
  = (Rejected (httpError "Validation failed, entered data is incorrect." 422), sample_db).
Proof.
  assert (String.length (trim (body_title (sample_request (Some "u0") "p9" "      " "World again"))) < 5 ∨
          String.length (trim (body_content (sample_request (Some "u0") "p9" "      " "World again"))) < 5)
    as Hshort by (left; vm_compute; lia).
  split; [exact Hshort|].
  apply (validation_precedes_lookup _ sample_db Hshort).
Defined.

(** ** Creating and deleting a post *)

Lemma createPost_anonymous (req : Request) (db : Db) :
  validationErrors req = [] → userId req = None →
  createPost req db = (Forwarded (default500 (schemaError "author")), db).
Proof.
  intros Hv Hu. unfold createPost. rewrite bool_decide_eq_true_2 by done. simpl.
  unfold try_catch. by rewrite bind_run, Hu.
Qed.

Lemma createPost_unreachable (req : Request) (db : Db) (i : Id) :
  validationErrors req = [] → userId req = Some i → reachable db = false →
  createPost req db = (Forwarded (default500 storeError), db).
Proof.
  intros Hv Hi H. unfold createPost. rewrite bool_decide_eq_true_2 by done. simpl.
  unfold try_catch, Post_create. rewrite Hi. by rewrite unreachable_first.
Qed.

(** The post is written before the author is loaded: it stays in the
    store when the author is unknown. *)
Lemma createPost_unknown_author (req : Request) (db : Db) (i : Id) :
  validationErrors req = [] → reachable db = true →
  userId req = Some i → userStore db !! i = None →
  createPost req db =
  (Forwarded (default500 (typeError "posts")),
   set_postStore (insert (new_post_id db)
                    (mkPost (body_title req) (body_content req) i false)) db).
Proof.
  intros Hv Hr Hi Hu. unfold createPost. rewrite bool_decide_eq_true_2 by done. simpl.
  unfold try_catch. rewrite Hi. run. by rewrite Hu.
Qed.

Lemma createPost_created (req : Request) (db : Db) (i : Id) (u : User) :
  validationErrors req = [] → reachable db = true →
  userId req = Some i → userStore db !! i = Some u →
  let post := (new_post_id db, mkPost (body_title req) (body_content req) i false) in
  createPost req db =
  (Responded 201 (created_body "Post created successfully!" post i
                    (firstName u +:+ " " +:+ lastName u)),
   mkDb true (<[post.1 := post.2]> (postStore db))
     (<[i := set_posts (posts u ++ [post.1]) u]> (userStore db))).
Proof.
  intros Hv Hr Hi Hu post. unfold createPost. rewrite bool_decide_eq_true_2 by done. simpl.
  unfold try_catch. rewrite Hi. run. rewrite Hu. run.
  unfold set_userStore, set_postStore. simpl. by rewrite Hr.
Qed.

Lemma deletePost_unreachable (req : Request) (db : Db) :
  reachable db = false →
  deletePost req db = (Forwarded (default500 storeError), db).
Proof.
  intros H. unfold deletePost, try_catch, Post_findById. by rewrite unreachable_first.
Qed.

Lemma deletePost_no_post (req : Request) (db : Db) :
  reachable db = true → postStore db !! params_postId req = None →
  deletePost req db = (Forwarded (httpError "Could not find post to delete." 404), db).
Proof. intros Hr Hp. unfold deletePost, try_catch. run. by rewrite Hp. Qed.

Lemma deletePost_not_author (req : Request) (db : Db) (p : Post) :
  reachable db = true → postStore db !! params_postId req = Some p →
  Some (author p) ≠ userId req →
  deletePost req db = (Forwarded (httpError "Not authenticated." 403), db).
Proof.
  intros Hr Hp Ha. unfold deletePost, try_catch. run. rewrite Hp. simpl.
  by rewrite bool_decide_eq_false_2.
Qed.

Lemma deletePost_unknown_author (req : Request) (db : Db) (p : Post) :
  reachable db = true → postStore db !! params_postId req = Some p →
  Some (author p) = userId req → userStore db !! author p = None →
  deletePost req db =
  (Forwarded (default500 (typeError "posts")), set_postStore (delete (params_postId req)) db).
Proof.
  intros Hr Hp Ha Hu. unfold deletePost, try_catch. run. rewrite Hp. simpl.
  rewrite bool_decide_eq_true_2 by done. run. rewrite <- Ha. simpl. by rewrite Hu.
Qed.

Lemma deletePost_deleted (req : Request) (db : Db) (p : Post) (u : User) :
  reachable db = true → postStore db !! params_postId req = Some p →
  Some (author p) = userId req → userStore db !! author p = Some u →
  deletePost req db =
  (Responded 200 (post_body "Post deleted!" (params_postId req, p)),
   mkDb true (delete (params_postId req) (postStore db))
     (<[author p := set_posts (pull (params_postId req) (posts u)) u]> (userStore db))).
Proof.
  intros Hr Hp Ha Hu. unfold deletePost, try_catch. run. rewrite Hp. simpl.
  rewrite bool_decide_eq_true_2 by done. run. rewrite <- Ha. simpl. rewrite Hu. run.
  unfold set_userStore, set_postStore. simpl. by rewrite Hr.
Qed.

Lemma pull_not_elem (i : Id) (l : list Id) : i ∉ pull i l.
Proof. unfold pull. rewrite list_elem_of_filter. intros [Hne _]. by apply Hne. Qed.

(** C6: creation and deletion keep the two directions of the author
    reference together.  For a reachable store and a caller who is a
    stored user, a valid creation answers 201, inserts the post, with the
    caller as its author, under an id that was free, and appends this id
    to the post list of the caller; the deletion of a post of the caller
    answers 200, removes the post from the post store and its id from
    the post list of the caller, and saves the caller.  Conversely,
    whenever one of the two handlers answers, it did both writes. *)
Theorem create_delete_keep_references (req : Request) (db : Db) :
  (∀ i u, reachable db = true → userId req = Some i → userStore db !! i = Some u →
   validationErrors req = [] →
   ∃ n, postStore db !! n = None ∧
     createPost req db =
     (Responded 201 (created_body "Post created successfully!"
                       (n, mkPost (body_title req) (body_content req) i false) i
                       (firstName u +:+ " " +:+ lastName u)),
      mkDb true
        (<[n := mkPost (body_title req) (body_content req) i false]> (postStore db))
        (<[i := mkUser (email u) (password u) (firstName u) (lastName u) (role u)
                  (posts u ++ [n])]> (userStore db)))) ∧
  (∀ i u p, reachable db = true → userId req = Some i → userStore db !! i = Some u →
   postStore db !! params_postId req = Some p → author p = i →
   deletePost req db =
   (Responded 200 (post_body "Post deleted!" (params_postId req, p)),
    mkDb true (delete (params_postId req) (postStore db))
      (<[i := mkUser (email u) (password u) (firstName u) (lastName u) (role u)
                (filter (λ j, j ≠ params_postId req) (posts u))]> (userStore db))) ∧
   postStore (deletePost req db).2 !! params_postId req = None ∧
   ∃ u', userStore (deletePost req db).2 !! i = Some u' ∧
         (params_postId req ∉ posts u') ∧
         ∀ j, j ≠ params_postId req → (j ∈ posts u' ↔ j ∈ posts u)) ∧
  (∀ s b db', createPost req db = (Responded s b, db') →
   ∃ i u n,
     userId req = Some i ∧ userStore db !! i = Some u ∧
     postStore db !! n = None ∧
     postStore db' = <[n := mkPost (body_title req) (body_content req) i false]> (postStore db) ∧
     userStore db'
     = <[i := mkUser (email u) (password u) (firstName u) (lastName u) (role u)
                (posts u ++ [n])]> (userStore db)) ∧
  (∀ s b db', deletePost req db = (Responded s b, db') →
   ∃ p u,
     postStore db !! params_postId req = Some p ∧ userId req = Some (author p) ∧
     userStore db !! author p = Some u ∧
     postStore db' = delete (params_postId req) (postStore db) ∧
     userStore db'
     = <[author p := mkUser (email u) (password u) (firstName u) (lastName u) (role u)
                       (filter (λ j, j ≠ params_postId req) (posts u))]> (userStore db) ∧
     postStore db' !! params_postId req = None ∧
     ∃ u', userStore db' !! author p = Some u' ∧ params_postId req ∉ posts u').
Proof.
  split; [|split; [|split]].
  - intros i u Hr Hi Hu Hv. exists (new_post_id db). split; [apply new_post_id_fresh|].
    by rewrite (createPost_created req db i u).
  - intros i u p Hr Hi Hu Hp <-.
    rewrite (deletePost_deleted req db p u) by done. split; [done|]. simpl.
    rewrite lookup_delete_eq, lookup_insert_eq. split; [done|].
    eexists. split; [done|]. simpl. split; [apply pull_not_elem|].
    intros j Hj. unfold pull. rewrite list_elem_of_filter.
    split; [intros [_ Hin]; exact Hin|intros Hin; split; [exact Hj|exact Hin]].
  - intros s b db'.
    destruct (decide (validationErrors req = [])) as [Hv|Hv];
      [|by rewrite createPost_invalid].
    destruct (userId req) as [i|] eqn:Hi; [|by rewrite createPost_anonymous].
    destruct (reachable db) eqn:Hr; [|by rewrite (createPost_unreachable req db i)].
    destruct (userStore db !! i) as [u|] eqn:Hu;
      [|by rewrite (createPost_unknown_author req db i)].
    rewrite (createPost_created req db i u) by done. intros Heq.
    injection Heq as _ _ <-.
    exists i, u, (new_post_id db). simpl. eauto using new_post_id_fresh.
  - intros s b db'.
    destruct (reachable db) eqn:Hr; [|by rewrite deletePost_unreachable].
    destruct (postStore db !! params_postId req) as [p|] eqn:Hp;
      [|by rewrite deletePost_no_post].
    destruct (decide (Some (author p) = userId req)) as [Ha|Ha];
      [|by rewrite (deletePost_not_author req db p)].
    destruct (userStore db !! author p) as [u|] eqn:Hu;
      [|by rewrite (deletePost_unknown_author req db p)].
    rewrite (deletePost_deleted req db p u) by done. intros Heq.
    injection Heq as _ _ <-.
    exists p, u. simpl. rewrite lookup_delete_eq, lookup_insert_eq.
    repeat split; try done. eexists. split; [done|]. simpl. apply pull_not_elem.
Qed.

(** Witness for C6: the sample user creates a second post, and deletes
    the first one. *)
Lemma create_delete_keep_references_witness :
  (∃ n, postStore sample_db !! n = None ∧
     createPost (sample_request (Some "u1") "" "Second" "Post text") sample_db
     = (Responded 201 (created_body "Post created successfully!"
                         (n, mkPost "Second" "Post text" "u1" false) "u1" "A B"),
        mkDb true (<[n := mkPost "Second" "Post text" "u1" false]> (postStore sample_db))
          (<["u1" := mkUser "a@x.com" "$2a$secret" "A" "B" USER ["p1"; n]]>
             (userStore sample_db)))) ∧
  deletePost (sample_request (Some "u1") "p1" "" "") sample_db
  = (Responded 200 (post_body "Post deleted!" ("p1", mkPost "Hello" "World!" "u1" false)),
     mkDb true ∅
       {[ "u1" := mkUser "a@x.com" "$2a$secret" "A" "B" USER [];
          "u0" := mkUser "root@x.com" "$2a$topsecret" "R" "T" ADMIN [] ]}).
Proof.
  destruct (create_delete_keep_references
              (sample_request (Some "u1") "" "Second" "Post text") sample_db)
    as (Hcreate & _).
  destruct (create_delete_keep_references
              (sample_request (Some "u1") "p1" "" "") sample_db)
    as (_ & Hdelete & _).
  split.
  - exact (Hcreate "u1" sample_author eq_refl eq_refl eq_refl eq_refl).
  - destruct (Hdelete "u1" sample_author sample_post eq_refl eq_refl eq_refl eq_refl eq_refl)
      as [Hrun _].
    rewrite Hrun. vm_compute. reflexivity.
Defined.

(** The author deletes the sample post: the post store and the post list
    of the author are both empty afterwards. *)
Example deletePost_sample :
  deletePost (sample_request (Some "u1") "p1" "" "") sample_db
  = (Responded 200 (post_body "Post deleted!" ("p1", sample_post)),
     mkDb true ∅ {[ "u1" := set_posts [] sample_author; "u0" := sample_admin ]}).
Proof. vm_compute. reflexivity. Qed.

(** ** Handlers that only read *)

Lemma read_only_ret {A : Type} (a : A) : read_only (mret a).
Proof. by intros db. Qed.

Lemma read_only_throw {A : Type} (e : Error) : read_only (@throw A e).
Proof. by intros db. Qed.

Lemma read_only_bind {A B : Type} (m : Async A) (k : A → Async B) :
  read_only m → (∀ a, read_only (k a)) → read_only (m ≫= k).
Proof.
  intros Hm Hk db. rewrite bind_run. specialize (Hm db).
  destruct (m db) as [[a|e] db1]; simpl in *; subst; [apply Hk|done].
Qed.

Lemma read_only_store_op {A : Type} (f : Db → A) :
  read_only (store_op (λ db, (f db, db))).
Proof. intros db. unfold store_op. by destruct (reachable db). Qed.

Lemma read_only_try_catch (body : Async Outcome) (f : Error → Error) (db : Db) :
  read_only body → (try_catch body f db).2 = db.
Proof.
  intros Hb. unfold try_catch. specialize (Hb db).
  by destruct (body db) as [[o|e] db1].
Qed.

Lemma read_only_role_of (u : option (Id * User)) : read_only (role_of u).
Proof. destruct u; [apply read_only_ret|apply read_only_throw]. Qed.

Lemma read_only_listing (q : Post → bool) (n k : nat) : read_only (listing q n k).
Proof.
  unfold listing. apply read_only_bind; [apply read_only_store_op|intros posts].
  apply read_only_bind; [apply read_only_store_op|intros total]. apply read_only_ret.
Qed.

Ltac read_only_tac :=
  repeat first
    [ apply read_only_ret
    | apply read_only_throw
    | apply read_only_role_of
    | apply read_only_listing
    | apply (read_only_store_op (A:=option (Id * User)))
    | apply (read_only_store_op (A:=option (Id * Post)))
    | apply (read_only_store_op (A:=list (Id * User)))
    | apply read_only_bind; [|intros ?]
    | progress cbv zeta
    | match goal with
      | |- read_only (match ?x with _ => _ end) => destruct x
      end ].

Lemma getPosts_read_only (req : Request) (db : Db) : (getPosts req db).2 = db.
Proof. apply read_only_try_catch. read_only_tac. Qed.

Lemma getPostRequests_read_only (req : Request) (db : Db) :
  (getPostRequests req db).2 = db.
Proof. apply read_only_try_catch. read_only_tac. Qed.

Lemma getPost_read_only (req : Request) (db : Db) : (getPost req db).2 = db.
Proof. apply read_only_try_catch. read_only_tac. Qed.

Lemma getUsers_read_only (req : Request) (db : Db) : (getUsers req db).2 = db.
Proof. apply read_only_try_catch. read_only_tac. Qed.

Lemma getUser_read_only (req : Request) (db : Db) : (getUser req db).2 = db.
Proof. apply read_only_try_catch. read_only_tac. Qed.

Lemma login_read_only {libs : Libraries} (req : Request) (db : Db) :
  (login req db).2 = db.
Proof. apply read_only_try_catch. read_only_tac. Qed.

Lemma register_postStore {libs : Libraries} (req : Request) (db : Db) :
  postStore (register req db).2 = postStore db.
Proof.
  unfold register. destruct (negb _); [done|]. unfold try_catch. rewrite bind_run.
  unfold User_create.
  destruct (reachable db); [|done]. by destruct (list_find _ _).
Qed.

(** ** What the writing handlers do to the post store *)

Lemma createPost_postStore (req : Request) (db : Db) :
  postStore (createPost req db).2 = postStore db ∨
  ∃ i, postStore (createPost req db).2
       = <[new_post_id db := mkPost (body_title req) (body_content req) i false]> (postStore db).
Proof.
  destruct (decide (validationErrors req = [])) as [Hv|Hv];
    [|left; by rewrite createPost_invalid].
  destruct (userId req) as [i|] eqn:Hi; [|left; by rewrite createPost_anonymous].
  destruct (reachable db) eqn:Hr; [|left; by rewrite (createPost_unreachable req db i)].
  right. exists i. destruct (userStore db !! i) as [u|] eqn:Hu.
  - by rewrite (createPost_created req db i u).
  - by rewrite (createPost_unknown_author req db i).
Qed.

Lemma deletePost_postStore (req : Request) (db : Db) :
  postStore (deletePost req db).2 = postStore db ∨
  postStore (deletePost req db).2 = delete (params_postId req) (postStore db).
Proof.
  destruct (reachable db) eqn:Hr; [|left; by rewrite deletePost_unreachable].
  destruct (postStore db !! params_postId req) as [p|] eqn:Hp;
    [|left; by rewrite deletePost_no_post].
  destruct (decide (Some (author p) = userId req)) as [Ha|Ha];
    [|left; by rewrite (deletePost_not_author req db p)].
  right. destruct (userStore db !! author p) as [u|] eqn:Hu.
  - by rewrite (deletePost_deleted req db p u).
  - by rewrite (deletePost_unknown_author req db p).
Qed.

Lemma updatePost_postStore (req : Request) (db : Db) :
  postStore (updatePost req db).2 = postStore db ∨
  ∃ p, postStore db !! params_postId req = Some p ∧ Some (author p) = userId req ∧
       postStore (updatePost req db).2
       = <[params_postId req := mkPost (body_title req) (body_content req) (author p) true]>
           (postStore db).
Proof.
  destruct (decide (validationErrors req = [])) as [Hv|Hv];
    [|left; by rewrite updatePost_invalid].
  destruct (reachable db) eqn:Hr; [|left; by rewrite updatePost_unreachable].
  destruct (postStore db !! params_postId req) as [p|] eqn:Hp;
    [|left; by rewrite updatePost_no_post].
  destruct (decide (Some (author p) = userId req)) as [Ha|Ha];
    [|left; by rewrite (updatePost_not_author req db p)].
  right. exists p. by rewrite (updatePost_author req db p).
Qed.

Lemma allowPostRequest_postStore (req : Request) (db : Db) :
  postStore (allowPostRequest req db).2 = postStore db ∨
  ∃ i u p, userId req = Some i ∧ userStore db !! i = Some u ∧ role u = ADMIN ∧
           postStore db !! params_postId req = Some p ∧
           postStore (allowPostRequest req db).2
           = <[params_postId req := set_allowed true p]> (postStore db).
Proof.
  destruct (reachable db) eqn:Hr; [|left; by rewrite allowPostRequest_unreachable].
  destruct (i ← userId req; userStore db !! i) as [u|] eqn:Hv;
    [|left; by rewrite allowPostRequest_unknown_viewer].
  destruct (userId req) as [i|] eqn:Hi; [simpl in Hv|done].
  destruct (decide (role u = ADMIN)) as [Hadm|Hadm];
    [|left; by rewrite (allowPostRequest_not_admin req db i u)].
  destruct (postStore db !! params_postId req) as [p|] eqn:Hp;
    [|left; by rewrite (allowPostRequest_no_post req db i u)].
  right. exists i, u, p. repeat (split; [done|]).
  destruct (userStore db !! author p) as [a|] eqn:Ha.
  - by rewrite (allowPostRequest_admin req db i u p a).
  - by rewrite (allowPostRequest_no_author req db i u p).
Qed.

(** ** The moves of the allowed flag *)

(** Counterexample for C1: the author edits the pending sample post
    through [PUT /feed/post/p1]; the post is allowed afterwards although
    the approval route did not run. *)
Lemma updatePost_publishes_pending :
  postStore sample_db !! "p1" = Some (mkPost "Hello" "World!" "u1" false) ∧
  postStore (dispatch (libs:=sample_libs) PUT_feed_post
               (sample_request (Some "u1") "p1" "Hello again" "World again") sample_db).2
    !! "p1" = Some (mkPost "Hello again" "World again" "u1" true) ∧
  ¬ published_only_by_approval sample_libs.
Proof.
  assert (postStore (dispatch (libs:=sample_libs) PUT_feed_post
               (sample_request (Some "u1") "p1" "Hello again" "World again") sample_db).2
            !! "p1" = Some (mkPost "Hello again" "World again" "u1" true)) as Hafter
    by (vm_compute; reflexivity).
  split; [reflexivity|]. split; [exact Hafter|].
  intros Hclaim.
  specialize (Hclaim PUT_feed_post _ sample_db "p1" _ _ eq_refl Hafter eq_refl eq_refl).
  discriminate Hclaim.
Qed.

(** C1, amended: the allowed flag of a post never goes back from true to
    false, and an operation takes it from false to true only when it is
    the approval of this post asked by an ADMIN or the edit of this post
    by its author. *)
Theorem allowed_flag_transitions {libs : Libraries} (r : Route) (req : Request) (db : Db)
    (id : Id) (p p' : Post) :
  postStore db !! id = Some p →
  postStore (dispatch r req db).2 !! id = Some p' →
  (allowed p = true → allowed p' = true) ∧
  (allowed p = false → allowed p' = true →
   id = params_postId req ∧
   ((r = POST_feed_post_request ∧
     ∃ i u, userId req = Some i ∧ userStore db !! i = Some u ∧ role u = ADMIN) ∨
    (r = PUT_feed_post ∧ userId req = Some (author p)))).
Proof.
  intros Hp.
  assert (∀ m : gmap string Post, m = postStore db → m !! id = Some p' →
            (allowed p = true → allowed p' = true) ∧
            (allowed p = false → allowed p' = true →
             id = params_postId req ∧
             ((r = POST_feed_post_request ∧
               ∃ i u, userId req = Some i ∧ userStore db !! i = Some u ∧ role u = ADMIN) ∨
              (r = PUT_feed_post ∧ userId req = Some (author p))))) as Hsame.
  { intros m -> Hp'. rewrite Hp in Hp'. injection Hp' as <-. split; [done|congruence]. }
  destruct r; simpl.
  - rewrite getPosts_read_only. by apply Hsame.
  - rewrite getPostRequests_read_only. by apply Hsame.
  - destruct (allowPostRequest_postStore req db)
      as [->|(i & u & q & Hi & Hu & Hadm & Hq & ->)]; [by apply Hsame|].
    destruct (decide (params_postId req = id)) as [<-|Hne].
    + rewrite lookup_insert_eq. intros [= <-]. split; [done|]. intros _ _. split; [done|].
      left. split; [done|]. by exists i, u.
    + rewrite lookup_insert_ne by done. by apply Hsame.
  - destruct (createPost_postStore (validate_post_body req) db) as [->|(i & ->)];
      [by apply Hsame|].
    rewrite lookup_insert_ne; [by apply Hsame|].
    intros <-. by rewrite new_post_id_fresh in Hp.
  - rewrite getPost_read_only. by apply Hsame.
  - destruct (updatePost_postStore (validate_post_body req) db)
      as [->|(q & Hq & Ha & ->)]; [by apply Hsame|].
    simpl in *. destruct (decide (params_postId req = id)) as [<-|Hne].
    + rewrite lookup_insert_eq. intros [= <-]. split; [done|]. intros _ _. split; [done|].
      right. split; [done|]. congruence.
    + rewrite lookup_insert_ne by done. by apply Hsame.
  - destruct (deletePost_postStore req db) as [->| ->]; [by apply Hsame|].
    destruct (decide (params_postId req = id)) as [<-|Hne].
    + by rewrite lookup_delete_eq.
    + rewrite lookup_delete_ne by done. by apply Hsame.
  - rewrite getUsers_read_only. by apply Hsame.
  - rewrite getUser_read_only. by apply Hsame.
  - rewrite register_postStore. by apply Hsame.
  - rewrite login_read_only. by apply Hsame.
Qed.

(** Witness for C1: the approval of the pending sample post by the
    administrator. *)
Lemma allowed_flag_transitions_witness :
  postStore sample_db !! "p1" = Some sample_post ∧
  postStore (dispatch (libs:=sample_libs) POST_feed_post_request
               (sample_request (Some "u0") "p1" "" "") sample_db).2 !! "p1"
  = Some (set_allowed true sample_post) ∧
  (allowed sample_post = true → allowed (set_allowed true sample_post) = true) ∧
  (allowed sample_post = false → allowed (set_allowed true sample_post) = true →
   "p1" = params_postId (sample_request (Some "u0") "p1" "" "") ∧
   ((POST_feed_post_request = POST_feed_post_request ∧
     ∃ i u, userId (sample_request (Some "u0") "p1" "" "") = Some i ∧
            userStore sample_db !! i = Some u ∧ role u = ADMIN) ∨
    (POST_feed_post_request = PUT_feed_post ∧
     userId (sample_request (Some "u0") "p1" "" "") = Some (author sample_post)))).
Proof.
  assert (postStore (dispatch (libs:=sample_libs) POST_feed_post_request
               (sample_request (Some "u0") "p1" "" "") sample_db).2 !! "p1"
          = Some (set_allowed true sample_post)) as Hafter by (vm_compute; reflexivity).
  split; [reflexivity|]. split; [exact Hafter|].
  exact (allowed_flag_transitions (libs:=sample_libs) POST_feed_post_request
           (sample_request (Some "u0") "p1" "" "") sample_db "p1" sample_post
           (set_allowed true sample_post) eq_refl Hafter).
Defined.

(** ** Registration *)

Lemma register_invalid {libs : Libraries} (req : Request) (db : Db) :
  validationErrors req ≠ [] →
  register req db
  = (Rejected (mkError "Validation failed." (Some 422) (validationErrors req)), db).
Proof. intros Hv. unfold register. by rewrite bool_decide_eq_false_2. Qed.

Lemma findOne_email_found (db : Db) (i : Id) (u : User) :
  reachable db = true → userStore db !! i = Some u →
  ∃ d, (User_findOne_email (email u) db).1 = Normal (Some d).
Proof.
  intros Hr Hu. unfold User_findOne_email. rewrite store_op_reachable by done. simpl.
  destruct (list_find_elem_of (λ d : Id * User, email d.2 = email u) (all_users db) (i, u))
    as [[n d] Hd]; [by apply elem_of_map_to_list|done|].
  rewrite Hd. by exists d.
Qed.

Lemma validate_register_errors {libs : Libraries} (req : Request) (db : Db) :
  isEmail (body_email req) = false ∨
  String.length (trim (body_password req)) < 5 ∨
  (∃ i u, userStore db !! i = Some u ∧ email u = body_email req) →
  validationErrors (validate_register req db) ≠ [].
Proof.
  intros Hbad. unfold validate_register. simpl. intros Heq.
  apply app_eq_nil in Heq as [_ Heq]. apply app_eq_nil in Heq as [H1 Heq].
  apply app_eq_nil in Heq as [H2 H3].
  destruct Hbad as [Hm|[Hpw|(i & u & Hu & He)]].
  - by rewrite Hm in H1.
  - unfold isLength_min5 in H3. by rewrite bool_decide_eq_false_2 in H3 by lia.
  - destruct (reachable db) eqn:Hr.
    + destruct (findOne_email_found db i u Hr Hu) as [d Hd].
      rewrite <- He in H2. by rewrite Hd in H2.
    + unfold User_findOne_email in H2. by rewrite store_op_unreachable in H2.
Qed.

Lemma register_created {libs : Libraries} (req : Request) (db : Db)
    (s : nat) (b : Body) (db' : Db) :
  register req db = (Responded s b, db') →
  userStore db !! new_user_id db = None ∧
  db' = set_userStore
          (insert (new_user_id db)
             (mkUser (body_email req) (bcrypt_hash (body_password req) 12)
                (body_firstName req) (body_lastName req) USER [])) db.
Proof.
  unfold register. destruct (negb _); [done|]. unfold try_catch. rewrite bind_run.
  unfold User_create. destruct (reachable db); [|done].
  destruct (list_find _ _); [done|]. simpl. intros Heq. injection Heq as _ _ <-.
  split; [apply new_user_id_fresh|done].
Qed.

(** What the validation of a registration covers: the request fails
    with the validation error 422 when the email is malformed, when the
    password has fewer than five characters once trimmed, or when the
    email, as it was sent, is the email of a stored user, and the store
    is left as it was; after a registration, a request with the email
    that is now in the user store fails in this way. *)
Theorem register_validation {libs : Libraries} (req : Request) (db : Db) :
  (isEmail (body_email req) = false ∨
   String.length (trim (body_password req)) < 5 ∨
   (∃ i u, userStore db !! i = Some u ∧ email u = body_email req) →
   ∃ e, dispatch PUT_auth_register req db = (Rejected e, db) ∧
        statusCode e = Some 422 ∧ data e ≠ []) ∧
  (∀ s b db1, dispatch PUT_auth_register req db = (Responded s b, db1) →
   (∃ i u, userStore db !! i = None ∧ userStore db1 !! i = Some u ∧
           email u = normalizeEmail (body_email req)) ∧
   ∀ req2, body_email req2 = normalizeEmail (body_email req) →
     ∃ e, dispatch PUT_auth_register req2 db1 = (Rejected e, db1) ∧
          statusCode e = Some 422 ∧ data e ≠ []).
Proof.
  assert (∀ r d,
    (isEmail (body_email r) = false ∨
     String.length (trim (body_password r)) < 5 ∨
     (∃ i u, userStore d !! i = Some u ∧ email u = body_email r)) →
    ∃ e, dispatch PUT_auth_register r d = (Rejected e, d) ∧
         statusCode e = Some 422 ∧ data e ≠ []) as Hrej.
  { intros r d Hbad. apply validate_register_errors in Hbad. simpl.
    rewrite register_invalid by done. eauto. }
  split; [apply Hrej|].
  intros s b db1 Hreg. simpl in Hreg. apply register_created in Hreg as (Hn & ->).
  split.
  - eexists (new_user_id db), _. simpl. rewrite lookup_insert_eq. by split.
  - intros req2 Hmail. apply Hrej. right. right.
    eexists (new_user_id db), _. simpl. rewrite lookup_insert_eq.
    split; [done|]. by rewrite Hmail.
Qed.

(** A registration with the email of the sample user. *)
Lemma register_validation_witness :
  (∃ i u, userStore sample_db !! i = Some u ∧
          email u = body_email (sample_request None "" "" "")) ∧
  ∃ e, dispatch (libs:=sample_libs) PUT_auth_register (sample_request None "" "" "") sample_db
       = (Rejected e, sample_db) ∧
       statusCode e = Some 422 ∧ data e ≠ [].
Proof.
  assert (∃ i u, userStore sample_db !! i = Some u ∧
                 email u = body_email (sample_request None "" "" "")) as Hknown
    by (exists "u1", sample_author; split; reflexivity).
  split; [exact Hknown|].
  destruct (register_validation (libs:=sample_libs) (sample_request None "" "" "") sample_db)
    as [Hreject _].
  apply Hreject. right. right. exact Hknown.
Defined.

(** A first registration on the empty store succeeds, and the same
    request fails afterwards without a new user. *)
Example register_twice :
  dispatch (libs:=sample_libs) PUT_auth_register (sample_request None "" "" "")
    sample_empty_db
  = (Responded 201 (registered_body "A user was created." "0"),
     mkDb true ∅ {[ "0" := mkUser "a@x.com" "$2a$secret" "A" "B" USER [] ]}) ∧
  dispatch (libs:=sample_libs) PUT_auth_register (sample_request None "" "" "")
    (mkDb true ∅ {[ "0" := mkUser "a@x.com" "$2a$secret" "A" "B" USER [] ]})
  = (Rejected (mkError "Validation failed." (Some 422)
                 [mkFieldError "email" "E-Mail address already exists"]),
     mkDb true ∅ {[ "0" := mkUser "a@x.com" "$2a$secret" "A" "B" USER [] ]}).
Proof. split; vm_compute; reflexivity. Qed.

(** ** Lookups that find nothing *)

(** Counterexample for C8: on the sample store no post has the id "p42"
    and no user has the id "u42"; both lookups answer 404, with a message
    in which the id does not occur. *)
Lemma not_found_message_omits_id :
  getPost (request None "p42" "u42" None "" "" "" "" "" "") sample_db
  = (Forwarded (mkError "Could not find post." (Some 404) []), sample_db) ∧
  includes "p42" "Could not find post." = false ∧
  getUser (request None "p42" "u42" None "" "" "" "" "" "") sample_db
  = (Forwarded (mkError "Could not find a user." (Some 404) []), sample_db) ∧
  includes "u42" "Could not find a user." = false ∧
  ¬ not_found_names_id.
Proof.
  assert (getPost (request None "p42" "u42" None "" "" "" "" "" "") sample_db
          = (Forwarded (mkError "Could not find post." (Some 404) []), sample_db)) as Hpost
    by reflexivity.
  split; [exact Hpost|]. split; [reflexivity|]. split; [reflexivity|].
  split; [reflexivity|].
  intros Hclaim.
  destruct (Hclaim (request None "p42" "u42" None "" "" "" "" "" "") sample_db eq_refl)
    as [Hnames _].
  destruct (Hnames eq_refl) as (e & He & _ & Hincl).
  rewrite Hpost in He. injection He as <-. discriminate Hincl.
Qed.

(** C8, amended: when [getPost] finds no post and when [getUser] finds
    no user, each fails with the 404 error and a fixed message, the same
    for every id; the message that names the requested id is the one of
    the 500 error sent when the lookup itself is rejected. *)
Theorem not_found_messages (req : Request) (db : Db) :
  (reachable db = true → postStore db !! params_postId req = None →
   getPost req db = (Forwarded (httpError "Could not find post." 404), db)) ∧
  (reachable db = true → userStore db !! params_userId req = None →
   getUser req db = (Forwarded (httpError "Could not find a user." 404), db)) ∧
  (reachable db = false →
   getPost req db
   = (Forwarded (mkError ("Could not find post with id: " +:+ params_postId req)
                   (Some 500) []), db) ∧
   getUser req db
   = (Forwarded (mkError ("Could not find user with id: " +:+ params_userId req)
                   (Some 500) []), db)).
Proof.
  split; [|split].
  - intros Hr Hp. unfold getPost, try_catch. run. by rewrite Hp.
  - intros Hr Hu. unfold getUser, try_catch. run. by rewrite Hu.
  - intros Hr. split.
    + unfold getPost, try_catch, Post_findById. by rewrite unreachable_first.
    + unfold getUser, try_catch, User_findById. by rewrite unreachable_first.
Qed.

(** Witness for C8: the two lookups on the sample store, reachable and
    not. *)
Lemma not_found_messages_witness :
  getPost (request None "p42" "u42" None "" "" "" "" "" "") sample_db
  = (Forwarded (httpError "Could not find post." 404), sample_db) ∧
  getUser (request None "p42" "u42" None "" "" "" "" "" "") sample_db
  = (Forwarded (httpError "Could not find a user." 404), sample_db) ∧
  getPost (request None "p42" "u42" None "" "" "" "" "" "") sample_offline_db
  = (Forwarded (mkError "Could not find post with id: p42" (Some 500) []),
     sample_offline_db).
Proof.
  destruct (not_found_messages (request None "p42" "u42" None "" "" "" "" "" "") sample_db)
    as (Hpost & Huser & _).
  destruct (not_found_messages (request None "p42" "u42" None "" "" "" "" "" "")
              sample_offline_db) as (_ & _ & Hoff).
  split; [exact (Hpost eq_refl eq_refl)|].
  split; [exact (Huser eq_refl eq_refl)|].
  exact (proj1 (Hoff eq_refl)).
Defined.

(** ** The list of the users *)

(** Counterexample for C9: while the store cannot be reached the list of
    the users fails with status 500, not 404. *)
Lemma getUsers_unreachable_is_500 :
  reachable sample_offline_db = false ∧
  getUsers (sample_request (Some "u0") "" "" "") sample_offline_db
  = (Forwarded (mkError "store operation failed" (Some 500) []), sample_offline_db) ∧
  outcome_status (getUsers (sample_request (Some "u0") "" "" "") sample_offline_db).1 = 500 ∧
  ¬ users_404_when_unavailable.
Proof.
  split; [reflexivity|]. split; [reflexivity|]. split; [reflexivity|].
  intros Hclaim.
  specialize (Hclaim (sample_request (Some "u0") "" "" "") sample_offline_db
                (or_introl eq_refl)).
  discriminate Hclaim.
Qed.

(** C9, amended: the list of the users holds every user of the store,
    and only them, when the store is reachable and has a user; it fails
    with the internal error 500 when the store is unreachable. *)
Theorem getUsers_spec (req : Request) (db : Db) :
  (reachable db = true → userStore db ≠ ∅ →
   ∃ users,
     getUsers req db
     = (Responded 200 (users_body "Fetched users successfully!" users), db) ∧
     ∀ i u, (i, u) ∈ users ↔ userStore db !! i = Some u) ∧
  (reachable db = false →
   getUsers req db = (Forwarded (mkError "store operation failed" (Some 500) []), db) ∧
   outcome_status (getUsers req db).1 = 500).
Proof.
  split.
  - intros Hr _. exists (all_users db). split.
    + unfold getUsers, try_catch. by run.
    + intros i u. apply elem_of_map_to_list.
  - intros Hr. unfold getUsers, try_catch, User_find. by rewrite unreachable_first.
Qed.

(** Witness for C9: the sample store, reachable and not. *)
Lemma getUsers_spec_witness :
  reachable sample_db = true ∧ userStore sample_db ≠ ∅ ∧
  (∃ users,
     getUsers (sample_request (Some "u0") "" "" "") sample_db
     = (Responded 200 (users_body "Fetched users successfully!" users), sample_db) ∧
     ∀ i u, (i, u) ∈ users ↔ userStore sample_db !! i = Some u) ∧
  outcome_status (getUsers (sample_request (Some "u0") "" "" "") sample_offline_db).1 = 500.
Proof.
  assert (userStore sample_db ≠ ∅) as Hne.
  { intros Heq. apply (f_equal (λ m : gmap string User, m !! "u0")) in Heq.
    vm_compute in Heq. discriminate Heq. }
  destruct (getUsers_spec (sample_request (Some "u0") "" "" "") sample_db) as [Hon _].
  destruct (getUsers_spec (sample_request (Some "u0") "" "" "") sample_offline_db)
    as [_ Hoff].
  split; [reflexivity|]. split; [exact Hne|]. split; [exact (Hon eq_refl Hne)|].
  exact (proj2 (Hoff eq_refl)).
Defined.

(** The list of an empty user store is an empty list with status 200:
    the 404 branch of the handler is never taken. *)
Example getUsers_empty_store :
  getUsers (sample_request (Some "u0") "" "" "") sample_empty_db
  = (Responded 200 (users_body "Fetched users successfully!" []), sample_empty_db).
Proof. reflexivity. Qed.

(** ** A session from registration to publication *)

Example session :
  (dispatch (libs:=sample_libs) PUT_auth_register
     (sample_request None "" "" "") session_start).1
  = Responded 201 (registered_body "A user was created." "0") ∧
  (dispatch (libs:=sample_libs) POST_auth_login
     (sample_request None "" "" "") session_registered).1
  = Responded 200 (login_body "a@x.com.0" "0") ∧
  (dispatch (libs:=sample_libs) POST_feed_post
     (sample_request (Some "0") "" "Hello" "World!") session_registered).1
  = Responded 201 (created_body "Post created successfully!"
                     ("0", mkPost "Hello" "World!" "0" false) "0" "A B") ∧
  (dispatch (libs:=sample_libs) GET_feed_posts
     (sample_request None "" "" "") session_posted).1
  = Forwarded (httpError "Could not find any posts." 404) ∧
  (dispatch (libs:=sample_libs) POST_feed_post_request
     (sample_request (Some "u0") "0" "" "") session_posted).1
  = Responded 200 (post_body "Post request allowed successfully!"
                     ("0", mkPost "Hello" "World!" "0" true)) ∧
  (dispatch (libs:=sample_libs) GET_feed_posts
     (sample_request None "" "" "") session_approved).1
  = Responded 200 (posts_body "Fetched posts successfully!"
                     [("0", mkPost "Hello" "World!" "0" true)] 1) ∧
  role <$> userStore session_approved !! "0" = Some BLOGGER.
Proof. repeat split; vm_compute; reflexivity. Qed.

(** * Further properties of the routes *)

(** ** The sample store *)

Lemma sample_db_users (j : Id) (v : User) :
  userStore sample_db !! j = Some v →
  (j = "u1" ∧ v = sample_author) ∨ (j = "u0" ∧ v = sample_admin).
Proof.
  unfold sample_db. simpl. rewrite lookup_insert_Some, lookup_singleton_Some.
  intros [[<- <-]|[_ [<- <-]]]; auto.
Qed.

Lemma sample_db_posts (id : Id) (p : Post) :
  postStore sample_db !! id = Some p → id = "p1" ∧ p = sample_post.
Proof.
  unfold sample_db. simpl. rewrite lookup_singleton_Some. by intros [<- <-].
Qed.

Lemma sample_db_texts_valid : texts_valid sample_db.
Proof. intros id p [-> ->]%sample_db_posts. vm_compute. repeat split; lia. Qed.

Lemma sample_db_refs_consistent : refs_consistent sample_db.
Proof.
  split.
  - intros id p [-> ->]%sample_db_posts. exists sample_author. split; [done|].
    apply list_elem_of_here.
  - intros i u id [[-> ->]|[-> ->]]%sample_db_users Hin.
    + apply list_elem_of_singleton in Hin as ->. by exists sample_post.
    + by apply elem_of_nil in Hin.
Qed.

(** ** Trimming *)

Lemma string_app_cons (a : ascii) (s t : string) : String a s +:+ t = String a (s +:+ t).
Proof. reflexivity. Qed.

Lemma string_app_nil_l (s : string) : "" +:+ s = s.
Proof. reflexivity. Qed.

Lemma string_app_assoc (s1 s2 s3 : string) : (s1 +:+ s2) +:+ s3 = s1 +:+ (s2 +:+ s3).
Proof.
  induction s1 as [|a s1 IH]; [done|]. by rewrite !string_app_cons, IH.
Qed.

Lemma string_app_nil_r (s : string) : s +:+ "" = s.
Proof. induction s as [|a s IH]; [done|]. by rewrite string_app_cons, IH. Qed.

Lemma rev_app_app (s1 s2 : string) : String.rev_app s1 s2 = String.rev s1 +:+ s2.
Proof.
  unfold String.rev. revert s2. induction s1 as [|a s1 IH]; intros s2; simpl; [done|].
  rewrite (IH (String a s2)), (IH (String a "")). by rewrite string_app_assoc.
Qed.

Lemma rev_cons (a : ascii) (s : string) : String.rev (String a s) = String.rev s +:+ String a "".
Proof. unfold String.rev at 1. simpl. apply rev_app_app. Qed.

Lemma rev_app_distr (s1 s2 : string) :
  String.rev (s1 +:+ s2) = String.rev s2 +:+ String.rev s1.
Proof.
  induction s1 as [|a s1 IH].
  - by rewrite string_app_nil_l, string_app_nil_r.
  - by rewrite string_app_cons, !rev_cons, IH, string_app_assoc.
Qed.

Lemma rev_involutive (s : string) : String.rev (String.rev s) = s.
Proof.
  induction s as [|a s IH]; [done|].
  by rewrite rev_cons, rev_app_distr, IH.
Qed.

Lemma all_space_app (s1 s2 : string) :
  all_space (s1 +:+ s2) = all_space s1 && all_space s2.
Proof.
  induction s1 as [|a s1 IH]; [done|].
  rewrite string_app_cons. simpl. by rewrite IH, andb_assoc.
Qed.

Lemma all_space_rev (s : string) : all_space (String.rev s) = all_space s.
Proof.
  induction s as [|a s IH]; [done|].
  rewrite rev_cons, all_space_app, IH. simpl. rewrite andb_true_r. apply andb_comm.
Qed.

(** A string that does not begin with whitespace. *)
Lemma ltrim_split (s : string) :
  ∃ a, s = a +:+ ltrim s ∧ all_space a = true ∧
       match ltrim s with
       | EmptyString => True
       | String c _ => is_space c = false
       end.
Proof.
  induction s as [|c s (a & Hs & Ha & Hc)]; simpl.
  - by exists "".
  - destruct (is_space c) eqn:Ec.
    + exists (String c a). rewrite string_app_cons. simpl. rewrite Ec, Ha.
      split; [by rewrite <- Hs|done].
    + by exists "".
Qed.

Lemma ltrim_clean (s : string) :
  match s with
  | EmptyString => True
  | String c _ => is_space c = false
  end → ltrim s = s.
Proof. destruct s as [|c s]; simpl; [done|]. by intros ->. Qed.

Lemma rtrim_split (s : string) :
  ∃ b, s = rtrim s +:+ b ∧ all_space b = true ∧ ltrim (String.rev (rtrim s)) = String.rev (rtrim s).
Proof.
  destruct (ltrim_split (String.rev s)) as (a & Hs & Ha & Hc).
  exists (String.rev a). unfold rtrim. split; [|split].
  - rewrite <- rev_app_distr, <- Hs. by rewrite rev_involutive.
  - by rewrite all_space_rev.
  - rewrite rev_involutive. by apply ltrim_clean.
Qed.

Lemma rtrim_fixed (s : string) :
  ltrim (String.rev s) = String.rev s → rtrim s = s.
Proof. intros H. unfold rtrim. by rewrite H, rev_involutive. Qed.

Lemma trim_split (s : string) :
  ∃ a b, s = a +:+ trim s +:+ b ∧ all_space a = true ∧ all_space b = true ∧
         trim (trim s) = trim s.
Proof.
  destruct (ltrim_split s) as (a & Hs & Ha & Hc).
  destruct (rtrim_split (ltrim s)) as (b & Ht & Hb & Hr).
  exists a, b. fold (trim s) in Ht, Hr. split; [by rewrite <- Ht|].
  split; [done|]. split; [done|].
  assert (ltrim (trim s) = trim s) as Hl.
  { apply ltrim_clean. destruct (trim s) as [|c t] eqn:Et; [done|].
    rewrite Ht in Hc. by simpl in Hc. }
  unfold trim at 1. rewrite Hl. by apply rtrim_fixed.
Qed.

(** ** The statuses of the routes *)

Lemma throws_within_ret {A : Type} (S : list nat) (a : A) : throws_within S (mret a).
Proof. intros db e Heq. discriminate Heq. Qed.

Lemma throws_within_throw {A : Type} (S : list nat) (m : string) (s : nat) :
  s ∈ S → throws_within S (@throw A (httpError m s)).
Proof. intros Hs db e [= <-]. exact Hs. Qed.

Lemma throws_within_typeError {A : Type} (S : list nat) (prop : string) :
  throws_within S (@throw A (typeError prop)).
Proof. intros db e [= <-]. exact I. Qed.

Lemma throws_within_schemaError {A : Type} (S : list nat) (path : string) :
  throws_within S (@throw A (schemaError path)).
Proof. intros db e [= <-]. exact I. Qed.

Lemma throws_within_store_op {A : Type} (S : list nat) (f : Db → A * Db) :
  throws_within S (store_op f).
Proof.
  intros db e. unfold store_op. destruct (reachable db).
  - by destruct (f db).
  - intros [= <-]. exact I.
Qed.

Lemma throws_within_bind {A B : Type} (S : list nat) (m : Async A) (k : A → Async B) :
  throws_within S m → (∀ a, throws_within S (k a)) → throws_within S (m ≫= k).
Proof.
  intros Hm Hk db e. rewrite bind_run. specialize (Hm db).
  destruct (m db) as [[a|e'] db1]; simpl in *.
  - apply Hk.
  - intros [= <-]. by apply Hm.
Qed.

Lemma answers_within_bind {A : Type} (S : list nat) (m : Async A) (k : A → Async Outcome) :
  throws_within S m → (∀ a, answers_within S (k a)) → answers_within S (m ≫= k).
Proof.
  intros Hm Hk. split.
  - apply throws_within_bind; [done|]. intros a. apply Hk.
  - intros db o. rewrite bind_run. destruct (m db) as [[a|e'] db1]; [|done].
    apply Hk.
Qed.

Lemma answers_within_respond (S : list nat) (s : nat) (b : Body) :
  s ∈ S → answers_within S (mret (Responded s b)).
Proof.
  intros Hs. split; [apply throws_within_ret|].
  intros db o [= <-]. eauto.
Qed.

Lemma answers_within_throw (S : list nat) (e : Error) :
  status_within S e → answers_within S (throw e).
Proof. intros He. split; [by intros db e' [= <-]|]. intros db o Heq. discriminate Heq. Qed.

Lemma throws_within_role_of (S : list nat) (u : option (Id * User)) :
  throws_within S (role_of u).
Proof. destruct u; [apply throws_within_ret|apply throws_within_typeError]. Qed.

Lemma throws_within_listing (S : list nat) (q : Post → bool) (n k : nat) :
  throws_within S (listing q n k).
Proof.
  unfold listing. apply throws_within_bind; [apply throws_within_store_op|intros posts].
  apply throws_within_bind; [apply throws_within_store_op|intros total].
  apply throws_within_ret.
Qed.

Lemma throws_within_Post_create (S : list nat) (t c : string) (a : option Id) :
  throws_within S (Post_create t c a).
Proof.
  destruct a; [apply throws_within_store_op|apply throws_within_schemaError].
Qed.

Lemma throws_within_User_create (S : list nat) (e pw fn ln : string) :
  throws_within S (User_create e pw fn ln).
Proof.
  intros db err. unfold User_create. destruct (reachable db).
  - destruct (list_find _ _); [|done]. intros [= <-]. exact I.
  - intros [= <-]. exact I.
Qed.

Ltac elem_of_tac := repeat first [apply list_elem_of_here | apply list_elem_of_further].

Ltac status_tac :=
  repeat first
    [ apply answers_within_respond; elem_of_tac
    | apply answers_within_throw; [by (simpl; elem_of_tac) || exact I]
    | apply throws_within_ret
    | apply throws_within_role_of
    | apply throws_within_listing
    | apply throws_within_Post_create
    | apply throws_within_User_create
    | apply throws_within_store_op
    | apply throws_within_bind; [|intros ?]
    | apply answers_within_bind; [|intros ?]
    | progress cbv zeta
    | match goal with
      | |- answers_within _ (match ?x with _ => _ end) => destruct x
      | |- throws_within _ (match ?x with _ => _ end) => destruct x
      end ].

Lemma default500_status (e : Error) : is_Some (statusCode (default500 e)).
Proof. unfold default500. destruct (statusCode e) eqn:He; [rewrite He|]; eauto. Qed.

Lemma default500_message_status (m : string) (e : Error) :
  is_Some (statusCode (default500_message m e)).
Proof. unfold default500_message. destruct (statusCode e) eqn:He; [rewrite He|]; eauto. Qed.

Lemma try_catch_within (S : list nat) (body : Async Outcome) (f : Error → Error) (db : Db) :
  (∀ e, statusCode (f e) = Some (default 500 (statusCode e))) →
  500 ∈ S → answers_within S body →
  outcome_status (try_catch body f db).1 ∈ S ∧
  ∀ e, outcome_error (try_catch body f db).1 = Some e → is_Some (statusCode e).
Proof.
  intros Hf H500 [Hthrow Hresp]. unfold try_catch.
  specialize (Hthrow db). specialize (Hresp db).
  destruct (body db) as [[o|e] db1]; simpl in *.
  - destruct (Hresp o eq_refl) as (s & b & -> & Hs). simpl. split; [done|]. by intros e.
  - specialize (Hthrow e eq_refl). unfold status_within in Hthrow.
    unfold errorResponder. simpl. rewrite Hf. split.
    + simpl. by destruct (statusCode e).
    + intros e' [= <-]. rewrite Hf. eauto.
Qed.

Lemma default500_code (e : Error) :
  statusCode (default500 e) = Some (default 500 (statusCode e)).
Proof. unfold default500. by destruct (statusCode e) eqn:He; simpl; rewrite ?He. Qed.

Lemma default500_message_code (m : string) (e : Error) :
  statusCode (default500_message m e) = Some (default 500 (statusCode e)).
Proof. unfold default500_message. by destruct (statusCode e) eqn:He; simpl; rewrite ?He. Qed.

Ltac handler_status :=
  first [ apply try_catch_within; [apply default500_code|elem_of_tac|status_tac]
        | apply try_catch_within; [apply default500_message_code|elem_of_tac|status_tac] ].

(** X1: every route answers with one of the statuses its handler sets (for the
    user list never 404, for the approval never 404), and every error a
    handler forwards or throws already carries a status code, so that
    the default of the error handler is never needed. *)
Theorem route_statuses_sound {libs : Libraries} (r : Route) (req : Request) (db : Db) :
  outcome_status (dispatch r req db).1 ∈ route_statuses r ∧
  ∀ e, outcome_error (dispatch r req db).1 = Some e → is_Some (statusCode e).
Proof.
  destruct r; simpl.
  - unfold getPosts. handler_status.
  - unfold getPostRequests. handler_status.
  - unfold allowPostRequest. handler_status.
  - unfold createPost. destruct (negb _).
    + simpl. split; [elem_of_tac|]. intros e [= <-]. simpl. eauto.
    + handler_status.
  - unfold getPost. handler_status.
  - unfold updatePost. destruct (negb _).
    + simpl. split; [elem_of_tac|]. intros e [= <-]. simpl. eauto.
    + handler_status.
  - unfold deletePost. handler_status.
  - unfold getUsers. handler_status.
  - unfold getUser. handler_status.
  - unfold register. destruct (negb _).
    + simpl. split; [elem_of_tac|]. intros e [= <-]. simpl. eauto.
    + handler_status.
  - unfold login. handler_status.
Qed.

(** Witness for X1. *)
Lemma route_statuses_sound_witness :
  outcome_status (dispatch (libs:=sample_libs) DELETE_feed_post sample_foreign_delete
                    sample_db).1 ∈ route_statuses DELETE_feed_post ∧
  is_Some (statusCode (httpError "Not authenticated." 403)).
Proof.
  destruct (route_statuses_sound (libs:=sample_libs) DELETE_feed_post sample_foreign_delete
              sample_db) as [Hstatus Herror].
  split; [exact Hstatus|]. exact (Herror _ eq_refl).
Defined.

(** ** The cases of the writing handlers *)

Lemma createPost_cases (req : Request) (db : Db) :
  (∃ e, outcome_error (createPost req db).1 = Some e ∧ (createPost req db).2 = db) ∨
  (∃ i, reachable db = true ∧ validationErrors req = [] ∧ userId req = Some i ∧
        userStore db !! i = None ∧
        createPost req db =
        (Forwarded (default500 (typeError "posts")),
         set_postStore (insert (new_post_id db)
                          (mkPost (body_title req) (body_content req) i false)) db)) ∨
  (∃ i u, reachable db = true ∧ validationErrors req = [] ∧ userId req = Some i ∧
          userStore db !! i = Some u ∧
          createPost req db =
          (Responded 201 (created_body "Post created successfully!"
                            (new_post_id db, mkPost (body_title req) (body_content req) i false)
                            i (firstName u +:+ " " +:+ lastName u)),
           mkDb true (<[new_post_id db := mkPost (body_title req) (body_content req) i false]>
                        (postStore db))
             (<[i := set_posts (posts u ++ [new_post_id db]) u]> (userStore db)))).
Proof.
  destruct (decide (validationErrors req = [])) as [Hv|Hv];
    [|left; rewrite createPost_invalid by done; by eexists].
  destruct (userId req) as [i|] eqn:Hi; [|left; rewrite createPost_anonymous by done; by eexists].
  destruct (reachable db) eqn:Hr; [|left; rewrite (createPost_unreachable req db i) by done; by eexists].
  right. destruct (userStore db !! i) as [u|] eqn:Hu.
  - right. exists i, u. repeat (split; [done|]). by apply createPost_created.
  - left. exists i. repeat (split; [done|]). by apply createPost_unknown_author.
Qed.

Lemma deletePost_cases (req : Request) (db : Db) :
  (∃ e, outcome_error (deletePost req db).1 = Some e ∧ (deletePost req db).2 = db) ∨
  ∃ p, reachable db = true ∧ postStore db !! params_postId req = Some p ∧
       userId req = Some (author p) ∧
       ((userStore db !! author p = None ∧
         deletePost req db =
         (Forwarded (default500 (typeError "posts")),
          set_postStore (delete (params_postId req)) db)) ∨
        (∃ u, userStore db !! author p = Some u ∧
              deletePost req db =
              (Responded 200 (post_body "Post deleted!" (params_postId req, p)),
               mkDb true (delete (params_postId req) (postStore db))
                 (<[author p := set_posts (pull (params_postId req) (posts u)) u]>
                    (userStore db))))).
Proof.
  destruct (reachable db) eqn:Hr; [|left; rewrite deletePost_unreachable by done; by eexists].
  destruct (postStore db !! params_postId req) as [p|] eqn:Hp;
    [|left; rewrite deletePost_no_post by done; by eexists].
  destruct (decide (Some (author p) = userId req)) as [Ha|Ha];
    [|left; rewrite (deletePost_not_author req db p) by done; by eexists].
  right. exists p. repeat (split; [done|]).
  destruct (userStore db !! author p) as [u|] eqn:Hu.
  - right. exists u. split; [done|]. by apply (deletePost_deleted req db p u).
  - left. split; [done|]. by apply (deletePost_unknown_author req db p).
Qed.

Lemma updatePost_cases (req : Request) (db : Db) :
  (∃ e, outcome_error (updatePost req db).1 = Some e ∧ (updatePost req db).2 = db) ∨
  ∃ p, reachable db = true ∧ validationErrors req = [] ∧
       postStore db !! params_postId req = Some p ∧ userId req = Some (author p) ∧
       updatePost req db =
       (Responded 200 (post_body "Post updated!"
                         (params_postId req,
                          mkPost (body_title req) (body_content req) (author p) true)),
        set_postStore (insert (params_postId req)
                         (mkPost (body_title req) (body_content req) (author p) true)) db).
Proof.
  destruct (decide (validationErrors req = [])) as [Hv|Hv];
    [|left; rewrite updatePost_invalid by done; by eexists].
  destruct (reachable db) eqn:Hr; [|left; rewrite updatePost_unreachable by done; by eexists].
  destruct (postStore db !! params_postId req) as [p|] eqn:Hp;
    [|left; rewrite updatePost_no_post by done; by eexists].
  destruct (decide (Some (author p) = userId req)) as [Ha|Ha];
    [|left; rewrite (updatePost_not_author req db p) by done; by eexists].
  right. exists p. repeat (split; [done|]). by apply (updatePost_author req db p).
Qed.

Lemma allowPostRequest_cases (req : Request) (db : Db) :
  (∃ e, outcome_error (allowPostRequest req db).1 = Some e ∧ (allowPostRequest req db).2 = db) ∨
  ∃ i u p, reachable db = true ∧ userId req = Some i ∧ userStore db !! i = Some u ∧
           role u = ADMIN ∧ postStore db !! params_postId req = Some p ∧
           ((userStore db !! author p = None ∧
             allowPostRequest req db =
             (Forwarded (default500 (typeError "role")),
              set_postStore (insert (params_postId req) (set_allowed true p)) db)) ∨
            (∃ a, userStore db !! author p = Some a ∧
                  allowPostRequest req db =
                  (Responded 200 (post_body "Post request allowed successfully!"
                                    (params_postId req, set_allowed true p)),
                   mkDb true (<[params_postId req := set_allowed true p]> (postStore db))
                     (if decide (role a = ADMIN) then userStore db
                      else <[author p := set_role BLOGGER a]> (userStore db))))).
Proof.
  destruct (reachable db) eqn:Hr; [|left; rewrite allowPostRequest_unreachable by done; by eexists].
  destruct (i ← userId req; userStore db !! i) as [u|] eqn:Hv;
    [|left; rewrite allowPostRequest_unknown_viewer by done; by eexists].
  destruct (userId req) as [i|] eqn:Hi; [simpl in Hv|done].
  destruct (decide (role u = ADMIN)) as [Hadm|Hadm];
    [|left; rewrite (allowPostRequest_not_admin req db i u) by done; by eexists].
  destruct (postStore db !! params_postId req) as [p|] eqn:Hp;
    [|left; rewrite (allowPostRequest_no_post req db i u) by done; by eexists].
  right. exists i, u, p. repeat (split; [done|]).
  destruct (userStore db !! author p) as [a|] eqn:Ha.
  - right. exists a. split; [done|]. by apply (allowPostRequest_admin req db i u p a).
  - left. split; [done|]. by apply (allowPostRequest_no_author req db i u p).
Qed.

Lemma register_cases {libs : Libraries} (req : Request) (db : Db) :
  (∃ e, outcome_error (register req db).1 = Some e ∧ (register req db).2 = db) ∨
  (reachable db = true ∧ validationErrors req = [] ∧
   list_find (λ d : Id * User, email d.2 = body_email req) (all_users db) = None ∧
   register req db =
   (Responded 201 (registered_body "A user was created." (new_user_id db)),
    set_userStore
      (insert (new_user_id db)
         (mkUser (body_email req) (bcrypt_hash (body_password req) 12)
            (body_firstName req) (body_lastName req) USER [])) db)).
Proof.
  unfold register. destruct (decide (validationErrors req = [])) as [Hv|Hv].
  - rewrite bool_decide_eq_true_2 by done. simpl. unfold try_catch. rewrite bind_run.
    unfold User_create. destruct (reachable db) eqn:Hr; [|left; by eexists].
    destruct (list_find _ _) eqn:Hf; [left; by eexists|]. right. by simpl.
  - left. rewrite bool_decide_eq_false_2 by done. by eexists.
Qed.

(** ** What a route does to the two collections *)

Ltac unchanged_route :=
  first [ rewrite getPosts_read_only | rewrite getPostRequests_read_only
        | rewrite getPost_read_only | rewrite getUsers_read_only
        | rewrite getUser_read_only | rewrite login_read_only ].

Lemma dispatch_userStore {libs : Libraries} (r : Route) (req : Request) (db : Db) :
  userStore (dispatch r req db).2 = userStore db ∨
  (∃ i u u', userStore db !! i = Some u ∧
     userStore (dispatch r req db).2 = <[i := u']> (userStore db) ∧
     ((r = POST_feed_post ∧ userId req = Some i ∧
       u' = set_posts (posts u ++ [new_post_id db]) u) ∨
      (r = DELETE_feed_post ∧ userId req = Some i ∧
       u' = set_posts (pull (params_postId req) (posts u)) u) ∨
      (r = POST_feed_post_request ∧ role u ≠ ADMIN ∧ u' = set_role BLOGGER u ∧
       ∃ p, postStore db !! params_postId req = Some p ∧ author p = i))) ∨
  (∃ e pw fn ln, r = PUT_auth_register ∧ userStore db !! new_user_id db = None ∧
     userStore (dispatch r req db).2
     = <[new_user_id db := mkUser e pw fn ln USER []]> (userStore db)).
Proof.
  destruct r; simpl; try (left; by unchanged_route).
  - destruct (allowPostRequest_cases req db)
      as [(err & _ & ->)|(i & u & p & Hr & Hi & Hu & Hadm & Hp & [[Ha ->]|(a & Ha & ->)])];
      [by left|by left|]. simpl.
    destruct (decide (role a = ADMIN)) as [Had|Had]; [by left|].
    right. left. exists (author p), a, (set_role BLOGGER a). split; [done|]. split; [done|].
    right. right. repeat (split; [done|]). by exists p.
  - destruct (createPost_cases (validate_post_body req) db)
      as [(err & _ & ->)|[(i & Hr & Hv & Hi & Hu & ->)|(i & u & Hr & Hv & Hi & Hu & ->)]];
      [by left|by left|]. simpl.
    right. left. exists i, u, (set_posts (posts u ++ [new_post_id db]) u).
    split; [done|]. split; [done|]. left. by repeat split.
  - destruct (updatePost_cases (validate_post_body req) db)
      as [(err & _ & ->)|(p & Hr & Hv & Hp & Hi & ->)]; by left.
  - destruct (deletePost_cases req db)
      as [(err & _ & ->)|(p & Hr & Hp & Hi & [[Ha ->]|(u & Hu & ->)])]; [by left|by left|]. simpl.
    right. left. exists (author p), u, (set_posts (pull (params_postId req) (posts u)) u).
    split; [done|]. split; [done|]. right. left. by repeat split.
  - destruct (register_cases (validate_register req db) db)
      as [(err & _ & ->)|(Hr & Hv & Hf & ->)];
      [by left|]. simpl.
    right. right. eexists _, _, _, _. split; [done|]. split; [apply new_user_id_fresh|done].
Qed.

Lemma dispatch_postStore {libs : Libraries} (r : Route) (req : Request) (db : Db) :
  postStore (dispatch r req db).2 = postStore db ∨
  (∃ i, r = POST_feed_post ∧ userId req = Some i ∧
     validationErrors (validate_post_body req) = [] ∧
     postStore db !! new_post_id db = None ∧
     postStore (dispatch r req db).2
     = <[new_post_id db := mkPost (trim (body_title req)) (trim (body_content req)) i false]>
         (postStore db)) ∨
  (∃ p, postStore db !! params_postId req = Some p ∧
     ((r = PUT_feed_post ∧ userId req = Some (author p) ∧
       validationErrors (validate_post_body req) = [] ∧
       postStore (dispatch r req db).2
       = <[params_postId req :=
             mkPost (trim (body_title req)) (trim (body_content req)) (author p) true]>
           (postStore db)) ∨
      (r = POST_feed_post_request ∧
       postStore (dispatch r req db).2
       = <[params_postId req := set_allowed true p]> (postStore db)) ∨
      (r = DELETE_feed_post ∧ userId req = Some (author p) ∧
       postStore (dispatch r req db).2 = delete (params_postId req) (postStore db)))).
Proof.
  destruct r; simpl; try (left; by unchanged_route).
  - destruct (allowPostRequest_postStore req db)
      as [->|(i & u & p & Hi & Hu & Hadm & Hp & ->)]; [by left|].
    right. right. exists p. split; [done|]. right. left. by split.
  - destruct (createPost_cases (validate_post_body req) db)
      as [(err & _ & ->)|[(i & Hr & Hv & Hi & Hu & ->)|(i & u & Hr & Hv & Hi & Hu & ->)]];
      [by left|..]; right; left; exists i; simpl;
      (split; [done|]); (split; [done|]); (split; [done|]);
      (split; [apply new_post_id_fresh|done]).
  - destruct (updatePost_cases (validate_post_body req) db)
      as [(err & _ & ->)|(p & Hr & Hv & Hp & Hi & ->)]; [by left|].
    right. right. exists p. split; [done|]. left. by repeat split.
  - destruct (deletePost_cases req db)
      as [(err & _ & ->)|(p & Hr & Hp & Hi & [[Ha ->]|(u & Hu & ->)])]; [by left|..];
      right; right; exists p; (split; [done|]); right; right; by repeat split.
  - left. by rewrite register_postStore.
Qed.

(** X2: the five GET routes and the login leave both collections as they
    found them, whatever the request and the store. *)
Theorem read_routes_leave_store {libs : Libraries} (r : Route) (req : Request) (db : Db) :
  reads_only r = true → (dispatch r req db).2 = db.
Proof. destruct r; simpl; try done; intros _; by unchanged_route. Qed.

(** Witness for X2. *)
Lemma read_routes_leave_store_witness :
  reads_only GET_feed_posts = true ∧
  (dispatch (libs:=sample_libs) GET_feed_posts sample_visit sample_db).2 = sample_db.
Proof.
  split; [reflexivity|].
  exact (read_routes_leave_store (libs:=sample_libs) GET_feed_posts sample_visit sample_db
           eq_refl).
Defined.

Lemma not_client_error (s : nat) :
  s ∈ [401; 403; 404; 422] → s = 200 ∨ s = 201 ∨ s = 500 → False.
Proof.
  intros Hin Hs. repeat (apply elem_of_cons in Hin as [->|Hin]; [lia|]).
  by apply not_elem_of_nil in Hin.
Qed.

(** X3: on every route an answer with status 401, 403, 404 or 422 comes
    with no write at all: the store is the one the request found. *)
Theorem client_errors_write_nothing {libs : Libraries} (r : Route) (req : Request) (db : Db) :
  outcome_status (dispatch r req db).1 ∈ [401; 403; 404; 422] →
  (dispatch r req db).2 = db.
Proof.
  destruct r; simpl; try (intros _; by unchanged_route).
  - destruct (allowPostRequest_cases req db)
      as [(err & _ & ->)|(i & u & p & Hr & Hi & Hu & Hadm & Hp & [[Ha ->]|(a & Ha & ->)])]; [done|..];
      intros Hs; exfalso; apply (not_client_error _ Hs); simpl; auto.
  - destruct (createPost_cases (validate_post_body req) db)
      as [(err & _ & ->)|[(i & Hr & Hv & Hi & Hu & ->)|(i & u & Hr & Hv & Hi & Hu & ->)]]; [done|..];
      intros Hs; exfalso; apply (not_client_error _ Hs); simpl; auto.
  - destruct (updatePost_cases (validate_post_body req) db)
      as [(err & _ & ->)|(p & Hr & Hv & Hp & Hi & ->)]; [done|].
    intros Hs; exfalso; apply (not_client_error _ Hs); simpl; auto.
  - destruct (deletePost_cases req db)
      as [(err & _ & ->)|(p & Hr & Hp & Hi & [[Ha ->]|(u & Hu & ->)])]; [done|..];
      intros Hs; exfalso; apply (not_client_error _ Hs); simpl; auto.
  - destruct (register_cases (validate_register req db) db)
      as [(err & _ & ->)|(Hr & Hv & Hf & ->)];
      [done|].
    intros Hs; exfalso; apply (not_client_error _ Hs); simpl; auto.
Qed.

(** Witness for X3. *)
Lemma client_errors_write_nothing_witness :
  outcome_status (dispatch (libs:=sample_libs) DELETE_feed_post sample_foreign_delete
                    sample_db).1 ∈ [401; 403; 404; 422] ∧
  (dispatch (libs:=sample_libs) DELETE_feed_post sample_foreign_delete sample_db).2
  = sample_db.
Proof.
  assert (outcome_status (dispatch (libs:=sample_libs) DELETE_feed_post
                            sample_foreign_delete sample_db).1 ∈ [401; 403; 404; 422])
    as Hstatus.
  { change (403 ∈ [401; 403; 404; 422]). apply list_elem_of_further, list_elem_of_here. }
  split; [exact Hstatus|].
  exact (client_errors_write_nothing (libs:=sample_libs) DELETE_feed_post
           sample_foreign_delete sample_db Hstatus).
Defined.

(** X4: no route deletes a user or changes its email, password hash or
    names; the post list of a user changes only by a post the user
    creates (one id appended) or deletes (that id pulled). *)
Theorem user_records_persist {libs : Libraries} (r : Route) (req : Request) (db : Db)
    (i : Id) (u : User) :
  userStore db !! i = Some u →
  ∃ u', userStore (dispatch r req db).2 !! i = Some u' ∧
        email u' = email u ∧ password u' = password u ∧
        firstName u' = firstName u ∧ lastName u' = lastName u ∧
        (posts u' = posts u ∨
         (userId req = Some i ∧
          ((r = POST_feed_post ∧ posts u' = posts u ++ [new_post_id db]) ∨
           (r = DELETE_feed_post ∧ posts u' = pull (params_postId req) (posts u))))).
Proof.
  intros Hu.
  destruct (dispatch_userStore r req db)
    as [->|[(j & v & v' & Hv & -> & Hch)|(e & pw & fn & ln & -> & Hn & ->)]].
  - exists u. repeat split; auto.
  - destruct (decide (j = i)) as [->|Hne].
    + rewrite lookup_insert_eq. exists v'. split; [done|].
      rewrite Hu in Hv. injection Hv as <-.
      destruct Hch as [(-> & Hi & ->)|[(-> & Hi & ->)|(-> & Hrole & -> & _)]]; simpl;
        repeat split; auto.
    + rewrite lookup_insert_ne by done. exists u. repeat split; auto.
  - rewrite lookup_insert_ne by congruence. exists u. repeat split; auto.
Qed.

(** Witness for X4. *)
Lemma user_records_persist_witness :
  userStore sample_db !! "u1" = Some sample_author ∧
  ∃ u', userStore (dispatch (libs:=sample_libs) POST_feed_post sample_submission
                     sample_db).2 !! "u1" = Some u' ∧
        email u' = email sample_author ∧ password u' = password sample_author ∧
        firstName u' = firstName sample_author ∧ lastName u' = lastName sample_author ∧
        (posts u' = posts sample_author ∨
         (userId sample_submission = Some "u1" ∧
          ((POST_feed_post = POST_feed_post ∧
            posts u' = posts sample_author ++ [new_post_id sample_db]) ∨
           (POST_feed_post = DELETE_feed_post ∧
            posts u' = pull (params_postId sample_submission) (posts sample_author))))).
Proof.
  split; [reflexivity|].
  exact (user_records_persist (libs:=sample_libs) POST_feed_post sample_submission
           sample_db "u1" sample_author eq_refl).
Defined.

(** X5: the role of a stored user changes only from USER to BLOGGER, and
    only through the approval of a post this user wrote; a user that
    appears is a new registration, with role USER and no post.  No route
    grants ADMIN and none demotes. *)
Theorem role_changes {libs : Libraries} (r : Route) (req : Request) (db : Db)
    (i : Id) (u' : User) :
  userStore (dispatch r req db).2 !! i = Some u' →
  match userStore db !! i with
  | Some u =>
      role u' = role u ∨
      (role u = USER ∧ role u' = BLOGGER ∧ r = POST_feed_post_request ∧
       ∃ p, postStore db !! params_postId req = Some p ∧ author p = i)
  | None => r = PUT_auth_register ∧ role u' = USER ∧ posts u' = []
  end.
Proof.
  destruct (dispatch_userStore r req db)
    as [->|[(j & v & v' & Hv & -> & Hch)|(e & pw & fn & ln & -> & Hn & ->)]].
  - intros ->. by left.
  - destruct (decide (j = i)) as [->|Hne].
    + rewrite lookup_insert_eq, Hv. intros [= <-].
      destruct Hch as [(-> & Hi & ->)|[(-> & Hi & ->)|(-> & Hrole & -> & Hp)]]; simpl;
        [by left|by left|].
      destruct (role v) eqn:Hv'; [right; by repeat split|by left|done].
    + rewrite lookup_insert_ne by done. intros ->. by left.
  - destruct (decide (new_user_id db = i)) as [<-|Hne].
    + rewrite lookup_insert_eq, Hn. by intros [= <-].
    + rewrite lookup_insert_ne by done. intros ->. by left.
Qed.

(** Witness for X5. *)
Lemma role_changes_witness :
  userStore (dispatch (libs:=sample_libs) POST_feed_post_request sample_approval
               sample_db).2 !! "u1" = Some (set_role BLOGGER sample_author) ∧
  (role (set_role BLOGGER sample_author) = role sample_author ∨
   (role sample_author = USER ∧ role (set_role BLOGGER sample_author) = BLOGGER ∧
    POST_feed_post_request = POST_feed_post_request ∧
    ∃ p, postStore sample_db !! params_postId sample_approval = Some p ∧ author p = "u1")).
Proof.
  assert (userStore (dispatch (libs:=sample_libs) POST_feed_post_request sample_approval
                       sample_db).2 !! "u1" = Some (set_role BLOGGER sample_author))
    as Hafter by (vm_compute; reflexivity).
  split; [exact Hafter|].
  exact (role_changes (libs:=sample_libs) POST_feed_post_request sample_approval sample_db
           "u1" (set_role BLOGGER sample_author) Hafter).
Defined.

(** X6: the author of a stored post never changes; its title and content
    change only through the edit route called by its author, to the
    trimmed texts of the request; it disappears only through the delete
    route called by its author. *)
Theorem post_changes {libs : Libraries} (r : Route) (req : Request) (db : Db)
    (id : Id) (p : Post) :
  postStore db !! id = Some p →
  match postStore (dispatch r req db).2 !! id with
  | Some p' =>
      author p' = author p ∧
      ((title p' = title p ∧ content p' = content p) ∨
       (r = PUT_feed_post ∧ id = params_postId req ∧ userId req = Some (author p) ∧
        title p' = trim (body_title req) ∧ content p' = trim (body_content req)))
  | None =>
      r = DELETE_feed_post ∧ id = params_postId req ∧ userId req = Some (author p)
  end.
Proof.
  intros Hp.
  destruct (dispatch_postStore r req db)
    as [->|[(i & -> & Hi & Hv & Hn & ->)
           |(q & Hq & [(-> & Hi & Hv & ->)|[(-> & ->)|(-> & Hi & ->)]])]].
  - rewrite Hp. auto.
  - rewrite lookup_insert_ne by congruence. rewrite Hp. auto.
  - destruct (decide (params_postId req = id)) as [<-|Hne].
    + rewrite lookup_insert_eq. rewrite Hp in Hq. injection Hq as <-. simpl.
      split; [done|]. right. by repeat split.
    + rewrite lookup_insert_ne by done. rewrite Hp. auto.
  - destruct (decide (params_postId req = id)) as [<-|Hne].
    + rewrite lookup_insert_eq. rewrite Hp in Hq. injection Hq as <-. simpl. auto.
    + rewrite lookup_insert_ne by done. rewrite Hp. auto.
  - destruct (decide (params_postId req = id)) as [<-|Hne].
    + rewrite lookup_delete_eq. rewrite Hp in Hq. injection Hq as <-. auto.
    + rewrite lookup_delete_ne by done. rewrite Hp. auto.
Qed.

(** Witness for X6. *)
Lemma post_changes_witness :
  postStore sample_db !! "p1" = Some sample_post ∧
  match postStore (dispatch (libs:=sample_libs) PUT_feed_post sample_edit sample_db).2
          !! "p1" with
  | Some p' =>
      author p' = author sample_post ∧
      ((title p' = title sample_post ∧ content p' = content sample_post) ∨
       (PUT_feed_post = PUT_feed_post ∧ "p1" = params_postId sample_edit ∧
        userId sample_edit = Some (author sample_post) ∧
        title p' = trim (body_title sample_edit) ∧
        content p' = trim (body_content sample_edit)))
  | None =>
      PUT_feed_post = DELETE_feed_post ∧ "p1" = params_postId sample_edit ∧
      userId sample_edit = Some (author sample_post)
  end.
Proof.
  split; [reflexivity|].
  exact (post_changes (libs:=sample_libs) PUT_feed_post sample_edit sample_db "p1"
           sample_post eq_refl).
Defined.

Lemma validate_post_body_ok (req : Request) :
  validationErrors (validate_post_body req) = [] →
  5 ≤ String.length (trim (body_title req)) ∧
  5 ≤ String.length (trim (body_content req)).
Proof.
  unfold validate_post_body. simpl. intros Heq.
  apply app_eq_nil in Heq as [_ Heq]. apply app_eq_nil in Heq as [Ht Hc].
  unfold isLength_min5 in *.
  destruct (bool_decide (5 ≤ String.length (trim (body_title req)))) eqn:Et; [|done].
  destruct (bool_decide (5 ≤ String.length (trim (body_content req)))) eqn:Ec; [|done].
  split; by eapply bool_decide_eq_true_1.
Qed.

Lemma trim_trim (s : string) : trim (trim s) = trim s.
Proof. by destruct (trim_split s) as (a & b & _ & _ & _ & Hidem). Qed.

(** X7: every route keeps the texts of the stored posts valid: a title and
    a content of five characters at least, with nothing left to trim. *)
Theorem texts_valid_preserved {libs : Libraries} (r : Route) (req : Request) (db : Db) :
  texts_valid db → texts_valid (dispatch r req db).2.
Proof.
  intros Hinv id p'.
  assert (validationErrors (validate_post_body req) = [] →
          ∀ a b, 5 ≤ String.length (title (mkPost (trim (body_title req))
                                             (trim (body_content req)) a b)) ∧
                 5 ≤ String.length (content (mkPost (trim (body_title req))
                                               (trim (body_content req)) a b)) ∧
                 trim (trim (body_title req)) = trim (body_title req) ∧
                 trim (trim (body_content req)) = trim (body_content req)) as Hnew.
  { intros Hv a b. destruct (validate_post_body_ok req Hv) as [Ht Hc].
    simpl. by rewrite !trim_trim. }
  destruct (dispatch_postStore r req db)
    as [->|[(i & -> & Hi & Hv & Hn & ->)
           |(q & Hq & [(-> & Hi & Hv & ->)|[(-> & ->)|(-> & Hi & ->)]])]].
  - apply Hinv.
  - destruct (decide (new_post_id db = id)) as [<-|Hne].
    + rewrite lookup_insert_eq. intros [= <-]. by apply Hnew.
    + rewrite lookup_insert_ne by done. apply Hinv.
  - destruct (decide (params_postId req = id)) as [<-|Hne].
    + rewrite lookup_insert_eq. intros [= <-]. by apply Hnew.
    + rewrite lookup_insert_ne by done. apply Hinv.
  - destruct (decide (params_postId req = id)) as [<-|Hne].
    + rewrite lookup_insert_eq. intros [= <-]. simpl. by apply (Hinv (params_postId req)).
    + rewrite lookup_insert_ne by done. apply Hinv.
  - destruct (decide (params_postId req = id)) as [<-|Hne].
    + by rewrite lookup_delete_eq.
    + rewrite lookup_delete_ne by done. apply Hinv.
Qed.

(** Witness for X7. *)
Lemma texts_valid_preserved_witness :
  texts_valid sample_db ∧
  texts_valid (dispatch (libs:=sample_libs) PUT_feed_post sample_edit sample_db).2.
Proof.
  split; [exact sample_db_texts_valid|].
  exact (texts_valid_preserved (libs:=sample_libs) PUT_feed_post sample_edit sample_db
           sample_db_texts_valid).
Defined.

(** ** The author references stay consistent *)

Lemma elem_of_pull (i j : Id) (l : list Id) : j ∈ pull i l ↔ j ≠ i ∧ j ∈ l.
Proof. unfold pull. by rewrite list_elem_of_filter. Qed.

Lemma refs_consistent_created (db : Db) (i : Id) (u : User) (t c : string) :
  userStore db !! i = Some u →
  refs_consistent db →
  refs_consistent
    (mkDb true (<[new_post_id db := mkPost t c i false]> (postStore db))
       (<[i := set_posts (posts u ++ [new_post_id db]) u]> (userStore db))).
Proof.
  intros Hu [HF HB]. pose proof (new_post_id_fresh db) as Hn. split; simpl.
  - intros id p. destruct (decide (new_post_id db = id)) as [<-|Hne].
    + rewrite lookup_insert_eq. intros [= <-]. simpl. rewrite lookup_insert_eq.
      eexists. split; [done|]. simpl. apply elem_of_app. right. apply list_elem_of_here.
    + rewrite lookup_insert_ne by done. intros Hp.
      destruct (HF id p Hp) as (v & Hv & Hin).
      destruct (decide (i = author p)) as [->|Hi].
      * rewrite lookup_insert_eq. eexists. split; [done|]. simpl.
        rewrite Hu in Hv. injection Hv as <-. apply elem_of_app. by left.
      * rewrite lookup_insert_ne by done. eauto.
  - intros j v id. destruct (decide (i = j)) as [<-|Hj].
    + rewrite lookup_insert_eq. intros [= <-]. simpl. intros Hin.
      apply elem_of_app in Hin as [Hin|Hin].
      * destruct (HB i u id Hu Hin) as (p & Hp & Ha).
        rewrite lookup_insert_ne by congruence. eauto.
      * apply list_elem_of_singleton in Hin as ->. rewrite lookup_insert_eq. eauto.
    + rewrite lookup_insert_ne by done. intros Hv Hin.
      destruct (HB j v id Hv Hin) as (p & Hp & Ha).
      rewrite lookup_insert_ne by congruence. eauto.
Qed.

Lemma refs_consistent_deleted (db : Db) (pid : Id) (p : Post) (u : User) :
  postStore db !! pid = Some p → userStore db !! author p = Some u →
  refs_consistent db →
  refs_consistent
    (mkDb true (delete pid (postStore db))
       (<[author p := set_posts (pull pid (posts u)) u]> (userStore db))).
Proof.
  intros Hp Hu [HF HB]. split; simpl.
  - intros id q. destruct (decide (pid = id)) as [<-|Hne].
    + by rewrite lookup_delete_eq.
    + rewrite lookup_delete_ne by done. intros Hq.
      destruct (HF id q Hq) as (v & Hv & Hin).
      destruct (decide (author p = author q)) as [Heq|Ha].
      * rewrite <- Heq in *. rewrite lookup_insert_eq. eexists. split; [done|]. simpl.
        rewrite Hu in Hv. injection Hv as <-. apply elem_of_pull. by split.
      * rewrite lookup_insert_ne by done. eauto.
  - intros j v id. destruct (decide (author p = j)) as [<-|Hj].
    + rewrite lookup_insert_eq. intros [= <-]. simpl. intros Hin.
      apply elem_of_pull in Hin as [Hne Hin].
      destruct (HB (author p) u id Hu Hin) as (q & Hq & Ha).
      rewrite lookup_delete_ne by done. eauto.
    + rewrite lookup_insert_ne by done. intros Hv Hin.
      destruct (HB j v id Hv Hin) as (q & Hq & Ha).
      assert (pid ≠ id) as Hne by (intros ->; congruence).
      rewrite lookup_delete_ne by done. eauto.
Qed.

Lemma refs_consistent_post_kept (db : Db) (pid : Id) (p p' : Post)
    (users : gmap string User) :
  postStore db !! pid = Some p → author p' = author p →
  (∀ i u, userStore db !! i = Some u → ∃ u', users !! i = Some u' ∧ posts u' = posts u) →
  (∀ i u', users !! i = Some u' → ∃ u, userStore db !! i = Some u ∧ posts u' = posts u) →
  refs_consistent db →
  refs_consistent (mkDb true (<[pid := p']> (postStore db)) users).
Proof.
  intros Hp Ha Hto Hfrom [HF HB]. split; simpl.
  - intros id q. destruct (decide (pid = id)) as [<-|Hne].
    + rewrite lookup_insert_eq. intros [= <-]. rewrite Ha.
      destruct (HF pid p Hp) as (v & Hv & Hin).
      destruct (Hto _ _ Hv) as (v' & Hv' & Hposts). exists v'. by rewrite Hposts.
    + rewrite lookup_insert_ne by done. intros Hq.
      destruct (HF id q Hq) as (v & Hv & Hin).
      destruct (Hto _ _ Hv) as (v' & Hv' & Hposts). exists v'. by rewrite Hposts.
  - intros j v' id Hv' Hin.
    destruct (Hfrom _ _ Hv') as (v & Hv & Hposts). rewrite Hposts in Hin.
    destruct (HB j v id Hv Hin) as (q & Hq & Haq).
    destruct (decide (pid = id)) as [<-|Hne].
    + rewrite lookup_insert_eq. exists p'. split; [done|]. congruence.
    + rewrite lookup_insert_ne by done. eauto.
Qed.

(** X8: when the identity of the request is a stored user, every route
    keeps the two directions of the author reference consistent: each
    post is in the post list of its stored author and each id in a post
    list is a post of that user. *)
Theorem refs_consistent_preserved {libs : Libraries} (r : Route) (req : Request) (db : Db) :
  caller_known db req →
  refs_consistent db → refs_consistent (dispatch r req db).2.
Proof.
  intros Hknown Hinv.
  destruct r; simpl; try (by unchanged_route).
  - destruct (allowPostRequest_cases req db)
      as [(err & _ & ->)|(i & u & p & Hr & Hi & Hu & Hadm & Hp & [[Ha ->]|(a & Ha & ->)])]; [done|..].
    + destruct Hinv as [HF _]. destruct (HF _ _ Hp) as (v & Hv & _). congruence.
    + simpl. apply (refs_consistent_post_kept db _ p); try done.
      * intros j v Hv. destruct (decide (role a = ADMIN)); [eauto|].
        destruct (decide (author p = j)) as [<-|Hne].
        -- rewrite lookup_insert_eq. rewrite Ha in Hv. injection Hv as <-. eauto.
        -- rewrite lookup_insert_ne by done. eauto.
      * intros j v'. destruct (decide (role a = ADMIN)); [eauto|].
        destruct (decide (author p = j)) as [<-|Hne].
        -- rewrite lookup_insert_eq. intros [= <-]. eauto.
        -- rewrite lookup_insert_ne by done. eauto.
  - destruct (createPost_cases (validate_post_body req) db)
      as [(err & _ & ->)|[(i & Hr & Hv & Hi & Hu & ->)|(i & u & Hr & Hv & Hi & Hu & ->)]]; [done|..].
    + destruct (Hknown i Hi) as [v Hv']. congruence.
    + simpl. by apply refs_consistent_created.
  - destruct (updatePost_cases (validate_post_body req) db)
      as [(err & _ & ->)|(p & Hr & Hv & Hp & Hi & ->)]; [done|].
    unfold set_postStore. simpl. rewrite Hr.
    apply (refs_consistent_post_kept db _ p); try done; eauto.
  - destruct (deletePost_cases req db)
      as [(err & _ & ->)|(p & Hr & Hp & Hi & [[Ha ->]|(u & Hu & ->)])]; [done|..].
    + destruct Hinv as [HF _]. destruct (HF _ _ Hp) as (v & Hv & _). congruence.
    + simpl. by apply refs_consistent_deleted.
  - destruct (register_cases (validate_register req db) db)
      as [(err & _ & ->)|(Hr & Hv & Hf & ->)];
      [done|].
    destruct Hinv as [HF HB]. pose proof (new_user_id_fresh db) as Hn. split; simpl.
    + intros id p Hp. destruct (HF id p Hp) as (v & Hv' & Hin).
      rewrite lookup_insert_ne by congruence. eauto.
    + intros j v id. destruct (decide (new_user_id db = j)) as [<-|Hne].
      * rewrite lookup_insert_eq. intros [= <-]. simpl. intros Hin.
        by apply elem_of_nil in Hin.
      * rewrite lookup_insert_ne by done. apply HB.
Qed.

(** Witness for X8. *)
Lemma refs_consistent_preserved_witness :
  caller_known sample_db sample_submission ∧
  refs_consistent sample_db ∧
  refs_consistent (dispatch (libs:=sample_libs) POST_feed_post sample_submission
                     sample_db).2.
Proof.
  assert (caller_known sample_db sample_submission) as Hknown.
  { intros i Hi. injection Hi as <-. by exists sample_author. }
  split; [exact Hknown|]. split; [exact sample_db_refs_consistent|].
  exact (refs_consistent_preserved (libs:=sample_libs) POST_feed_post sample_submission
           sample_db Hknown sample_db_refs_consistent).
Defined.

(** ** The pending posts *)

(** X9: the list of the pending posts fails with 401 for a viewer who
    is not an ADMIN, before any post is read; for an ADMIN it is the
    requested page of four of the posts that are not allowed, with their
    total number, and the 404 error when that page is empty. *)
Theorem getPostRequests_spec (req : Request) (db : Db) (i : Id) (u : User) :
  reachable db = true →
  userId req = Some i →
  userStore db !! i = Some u →
  let page := Pos.to_nat (default 1%positive (query_page req)) in
  let pending := filter (λ d : Id * Post, allowed d.2 = false) (all_posts db) in
  let chunk := take 4 (drop (4 * (page - 1)) pending) in
  (role u ≠ ADMIN →
   getPostRequests req db = (Forwarded (httpError "Not authorized." 401), db)) ∧
  (role u = ADMIN →
   (chunk = [] →
    getPostRequests req db = (Forwarded (httpError "Could not find any posts." 404), db)) ∧
   (chunk ≠ [] →
    getPostRequests req db
    = (Responded 200 (posts_body "Fetched posts successfully!" chunk (length pending)), db)) ∧
   (∀ d, d ∈ chunk → postStore db !! d.1 = Some d.2 ∧ allowed d.2 = false)).
Proof.
  intros Hr Hi Hu page pending chunk.
  assert (filter (λ d : Id * Post, q_allowed false d.2 = true) (all_posts db) = pending)
    as Hfilter.
  { apply list_filter_iff. intros d. unfold q_allowed.
    split; [by intros ?%bool_decide_eq_true|by intros ?; apply bool_decide_eq_true]. }
  split.
  - intros Hrole. unfold getPostRequests, try_catch. run.
    rewrite Hi. simpl. rewrite Hu. run. by rewrite bool_decide_eq_false_2.
  - intros Hrole.
    assert (getPostRequests req db =
            (if bool_decide (length chunk = 0)
             then Forwarded (httpError "Could not find any posts." 404)
             else Responded 200 (posts_body "Fetched posts successfully!" chunk
                                   (length pending)), db)) as Hrun.
    { unfold getPostRequests, try_catch. run.
      rewrite Hi. simpl. rewrite Hu. run. rewrite bool_decide_eq_true_2 by done. simpl.
      rewrite bind_run, listing_run by done. rewrite Hfilter.
      rewrite (Nat.mul_comm _ 4). fold page. fold chunk. simpl.
      by case_bool_decide. }
    split; [|split].
    + intros Hnil. rewrite Hrun, Hnil. reflexivity.
    + intros Hne. rewrite Hrun. rewrite bool_decide_eq_false_2; [done|].
      intros Hlen. by apply Hne, nil_length_inv.
    + intros d Hd.
      assert (d ∈ pending) as Hin by (eapply subseteq_drop, subseteq_take, Hd).
      apply list_elem_of_filter in Hin as [Hq Hin]. split; [|done].
      destruct d as [j p]. by apply elem_of_map_to_list.
Qed.

(** Witness for X9. *)
Lemma getPostRequests_spec_witness :
  reachable sample_db = true ∧
  userId sample_approval = Some "u0" ∧
  userStore sample_db !! "u0" = Some sample_admin ∧
  getPostRequests sample_approval sample_db
  = (Responded 200 (posts_body "Fetched posts successfully!" [("p1", sample_post)] 1),
     sample_db).
Proof.
  split; [reflexivity|]. split; [reflexivity|]. split; [reflexivity|].
  destruct (getPostRequests_spec sample_approval sample_db "u0" sample_admin
              eq_refl eq_refl eq_refl) as [_ Hadmin].
  destruct (Hadmin eq_refl) as (_ & Hpage & _).
  apply Hpage. vm_compute. discriminate.
Defined.

(** ** Every visible post is on exactly one page *)

Lemma NoDup_visible (db : Db) (P : Id * Post → Prop) `{∀ d, Decision (P d)} :
  NoDup (filter P (all_posts db)).
Proof. apply NoDup_filter, NoDup_map_to_list. Qed.

Lemma page_of_lookup (l : list (Id * Post)) (page j : nat) :
  j < 4 → page_of l page !! j = l !! (4 * (page - 1) + j).
Proof. intros Hj. unfold page_of. by rewrite lookup_take_lt, lookup_drop. Qed.

Lemma elem_of_page_of (l : list (Id * Post)) (page : nat) (d : Id * Post) :
  d ∈ page_of l page ↔ ∃ j, j < 4 ∧ l !! (4 * (page - 1) + j) = Some d.
Proof.
  unfold page_of. rewrite elem_of_take. split.
  - intros (j & Hj & Hlt). exists j. split; [done|]. by rewrite lookup_drop in Hj.
  - intros (j & Hlt & Hj). exists j. split; [|done]. by rewrite lookup_drop.
Qed.

Lemma getPosts_page_run (req : Request) (db : Db) (v : Viewer) (pg : positive) (n : nat) :
  reachable db = true →
  viewer db (userId req) = Some v →
  Pos.to_nat pg = n →
  let vis := filter (λ d : Id * Post, visible_to v (userId req) d.2 = true) (all_posts db) in
  getPosts (with_page (Some pg) req) db =
  (if bool_decide (length (page_of vis n) = 0)
   then Forwarded (httpError "Could not find any posts." 404)
   else Responded 200 (posts_body "Fetched posts successfully!" (page_of vis n) (length vis)),
   db).
Proof.
  intros Hr Hv <- vis. by rewrite (getPosts_run (with_page (Some pg) req) db v).
Qed.

Lemma listed_on_some_page (req : Request) (db : Db) (v : Viewer) (i : Id) (p : Post) :
  reachable db = true →
  viewer db (userId req) = Some v →
  postStore db !! i = Some p →
  visible_to v (userId req) p = true →
  ∃ (pg : positive) posts total,
    getPosts (with_page (Some pg) req) db
    = (Responded 200 (posts_body "Fetched posts successfully!" posts total), db) ∧
    (i, p) ∈ posts.
Proof.
  intros Hr Hv Hp Hvis.
  set (vis := filter (λ d : Id * Post, visible_to v (userId req) d.2 = true) (all_posts db)).
  assert ((i, p) ∈ vis) as Hin.
  { apply list_elem_of_filter. split; [done|]. by apply elem_of_map_to_list. }
  apply list_elem_of_lookup in Hin as [k Hk].
  assert (Pos.to_nat (Pos.of_nat (S (k / 4))) = S (k / 4)) as Hpg by (apply Nat2Pos.id; lia).
  assert ((i, p) ∈ page_of vis (S (k / 4))) as Hhere.
  { apply elem_of_page_of. exists (k mod 4). split; [apply Nat.mod_upper_bound; lia|].
    rewrite <- Hk. f_equal. pose proof (Nat.div_mod_eq k 4). lia. }
  exists (Pos.of_nat (S (k / 4))), (page_of vis (S (k / 4))), (length vis). split; [|done].
  rewrite (getPosts_page_run req db v _ _ Hr Hv Hpg). fold vis.
  rewrite bool_decide_eq_false_2; [done|].
  intros Hlen. apply nil_length_inv in Hlen. rewrite Hlen in Hhere.
  by apply elem_of_nil in Hhere.
Qed.

Lemma listed_is_visible (req : Request) (db : Db) (v : Viewer) (s : nat) (m : string)
    (posts : list (Id * Post)) (total : nat) (d : Id * Post) :
  reachable db = true →
  viewer db (userId req) = Some v →
  (getPosts req db).1 = Responded s (posts_body m posts total) →
  d ∈ posts →
  postStore db !! d.1 = Some d.2 ∧ visible_to v (userId req) d.2 = true.
Proof.
  intros Hr Hv. rewrite (getPosts_run req db v) by done. cbn [fst].
  case_bool_decide; [done|]. intros [= _ _ <- _] Hd.
  assert (d ∈ filter (λ d : Id * Post, visible_to v (userId req) d.2 = true) (all_posts db))
    as Hin by (eapply subseteq_drop, subseteq_take, Hd).
  apply list_elem_of_filter in Hin as [Hq Hin]. split; [|done].
  destruct d as [j p]. by apply elem_of_map_to_list.
Qed.

(** X10: every post that the viewer may see is on exactly one page of the
    feed: some page number answers 200 with the post in it, and any page
    that lists the post has that number. *)
Theorem getPosts_pages_partition (req : Request) (db : Db) (v : Viewer) (i : Id) (p : Post) :
  reachable db = true →
  viewer db (userId req) = Some v →
  postStore db !! i = Some p →
  visible_to v (userId req) p = true →
  ∃ pg : positive,
    (∃ posts total,
       getPosts (with_page (Some pg) req) db
       = (Responded 200 (posts_body "Fetched posts successfully!" posts total), db) ∧
       (i, p) ∈ posts) ∧
    (∀ pg' s posts total,
       (getPosts (with_page (Some pg') req) db).1
       = Responded s (posts_body "Fetched posts successfully!" posts total) →
       (i, p) ∈ posts → pg' = pg).
Proof.
  intros Hr Hv Hp Hvis.
  set (vis := filter (λ d : Id * Post, visible_to v (userId req) d.2 = true) (all_posts db)).
  assert (NoDup vis) as Hnd by apply NoDup_visible.
  assert (∀ pg posts, 
            (∃ s total, (getPosts (with_page (Some pg) req) db).1
               = Responded s (posts_body "Fetched posts successfully!" posts total)) →
            (i, p) ∈ posts →
            ∃ j, j < 4 ∧ vis !! (4 * (Pos.to_nat pg - 1) + j) = Some (i, p)) as Hindex.
  { intros pg posts (s & total & Hrun).
    rewrite (getPosts_page_run req db v pg _ Hr Hv eq_refl) in Hrun. cbn [fst] in Hrun.
    fold vis in Hrun. revert Hrun. case_bool_decide; [done|].
    intros [= _ <- _] Hthere. by apply elem_of_page_of in Hthere. }
  destruct (listed_on_some_page req db v i p Hr Hv Hp Hvis) as (pg & posts & total & Hrun & Hin).
  exists pg. split; [by eauto|].
  intros pg' s posts' total' Hrun' Hin'.
  destruct (Hindex pg posts) as (j & Hj & Hlook); [rewrite Hrun; by eauto|done|].
  destruct (Hindex pg' posts') as (j' & Hj' & Hlook'); [by eauto|done|].
  pose proof (NoDup_lookup _ _ _ _ Hnd Hlook Hlook') as Heq.
  apply Pos2Nat.inj.
  pose proof (Pos2Nat.is_pos pg). pose proof (Pos2Nat.is_pos pg'). lia.
Qed.

(** Witness for X10. *)
Lemma getPosts_pages_partition_witness :
  reachable sample_published_db = true ∧
  viewer sample_published_db (userId sample_visit) = Some Anonymous ∧
  postStore sample_published_db !! "p1" = Some (set_allowed true sample_post) ∧
  visible_to Anonymous (userId sample_visit) (set_allowed true sample_post) = true ∧
  ∃ pg : positive,
    (∃ posts total,
       getPosts (with_page (Some pg) sample_visit) sample_published_db
       = (Responded 200 (posts_body "Fetched posts successfully!" posts total),
          sample_published_db) ∧
       ("p1", set_allowed true sample_post) ∈ posts) ∧
    (∀ pg' s posts total,
       (getPosts (with_page (Some pg') sample_visit) sample_published_db).1
       = Responded s (posts_body "Fetched posts successfully!" posts total) →
       ("p1", set_allowed true sample_post) ∈ posts → pg' = pg).
Proof.
  split; [reflexivity|]. split; [reflexivity|]. split; [reflexivity|].
  split; [reflexivity|].
  exact (getPosts_pages_partition sample_visit sample_published_db Anonymous "p1"
           (set_allowed true sample_post) eq_refl eq_refl eq_refl eq_refl).
Defined.

(** ** Logging in *)

Lemma findOne_email_unique (db : Db) (i : Id) (u : User) :
  reachable db = true → userStore db !! i = Some u →
  (∀ j v, userStore db !! j = Some v → email v = email u → j = i) →
  User_findOne_email (email u) db = (Normal (Some (i, u)), db).
Proof.
  intros Hr Hu Huniq. unfold User_findOne_email. rewrite store_op_reachable by done. simpl.
  destruct (list_find_elem_of (λ d : Id * User, email d.2 = email u) (all_users db) (i, u))
    as [[n [j v]] Hd]; [by apply elem_of_map_to_list|done|].
  rewrite Hd. simpl. apply list_find_Some in Hd as (Hl & He & _). simpl in He.
  assert ((j, v) ∈ all_users db) as Hin by (apply list_elem_of_lookup; eauto).
  apply elem_of_map_to_list in Hin.
  assert (j = i) as -> by eauto. rewrite Hu in Hin. by injection Hin as <-.
Qed.

Lemma findOne_email_none (db : Db) (e : string) :
  reachable db = true →
  (∀ j v, userStore db !! j = Some v → email v ≠ e) →
  User_findOne_email e db = (Normal None, db).
Proof.
  intros Hr Hnone. unfold User_findOne_email. rewrite store_op_reachable by done. simpl.
  destruct (list_find _ _) as [[n [j v]]|] eqn:Hd; [|done].
  apply list_find_Some in Hd as (Hl & He & _). simpl in He.
  assert ((j, v) ∈ all_users db) as Hin by (apply list_elem_of_lookup; eauto).
  apply elem_of_map_to_list in Hin. by destruct (Hnone j v Hin).
Qed.

(** X11: the login fails with 401 when no user has the email and when
    the password does not match the stored hash; when the email belongs
    to one user and the password matches it answers 200 with the id of
    this user and a token signed for its email and id; and a login that
    answers 200 always names a stored user with this email and a matching
    password.  The store is not written. *)
Theorem login_spec {libs : Libraries} (req : Request) (db : Db) :
  reachable db = true →
  ((∀ j v, userStore db !! j = Some v → email v ≠ body_email req) →
   login req db
   = (Forwarded (httpError "A user with this email could not be found" 401), db)) ∧
  (∀ i u, userStore db !! i = Some u → email u = body_email req →
     (∀ j v, userStore db !! j = Some v → email v = email u → j = i) →
     login req db =
     (if bcrypt_compare (body_password req) (password u)
      then Responded 200 (login_body (jwt_sign (email u) i) i)
      else Forwarded (httpError "Wrong password" 401), db)) ∧
  (∀ s token i, (login req db).1 = Responded s (login_body token i) →
     ∃ u, userStore db !! i = Some u ∧ email u = body_email req ∧
          bcrypt_compare (body_password req) (password u) = true ∧
          token = jwt_sign (email u) i).
Proof.
  intros Hr. split; [|split].
  - intros Hnone. unfold login, try_catch. rewrite bind_run.
    by rewrite findOne_email_none.
  - intros i u Hu He Huniq. unfold login, try_catch. rewrite bind_run, <- He.
    rewrite (findOne_email_unique db i u) by done. simpl.
    by destruct (bcrypt_compare _ _).
  - intros s token i. unfold login, try_catch. rewrite bind_run.
    unfold User_findOne_email. rewrite store_op_reachable by done. simpl.
    destruct (list_find _ _) as [[n [j v]]|] eqn:Hd; simpl; [|done].
    apply list_find_Some in Hd as (Hl & He & _). simpl in He.
    assert ((j, v) ∈ all_users db) as Hin by (apply list_elem_of_lookup; eauto).
    apply elem_of_map_to_list in Hin.
    destruct (bcrypt_compare _ _) eqn:Hc; simpl; [|done].
    intros [= _ <- <-]. by exists v.
Qed.

(** Witness for X11. *)
Lemma login_spec_witness :
  reachable sample_db = true ∧
  userStore sample_db !! "u1" = Some sample_author ∧
  email sample_author = body_email sample_visit ∧
  login (libs:=sample_libs) sample_visit sample_db
  = (Responded 200 (login_body "a@x.com.u1" "u1"), sample_db).
Proof.
  split; [reflexivity|]. split; [reflexivity|]. split; [reflexivity|].
  destruct (login_spec (libs:=sample_libs) sample_visit sample_db eq_refl)
    as (_ & Hknown & _).
  rewrite (Hknown "u1" sample_author eq_refl eq_refl).
  - reflexivity.
  - intros j v [[-> ->]|[-> ->]]%sample_db_users; [done|]. intros Hmail.
    discriminate Hmail.
Defined.

(** ** A registration that succeeds, and the login after it *)

Lemma validate_register_ok {libs : Libraries} (req : Request) (db : Db) :
  reachable db = true → validationErrors req = [] →
  isEmail (body_email req) = true →
  5 ≤ String.length (trim (body_password req)) →
  (∀ j v, userStore db !! j = Some v → email v ≠ body_email req) →
  validationErrors (validate_register req db) = [].
Proof.
  intros Hr Hv Hmail Hpw Hnew. unfold validate_register. simpl.
  rewrite Hv, Hmail, findOne_email_none by done. simpl.
  unfold isLength_min5. by rewrite bool_decide_eq_true_2.
Qed.

Lemma list_find_email_None (db : Db) (e : string) :
  list_find (λ d : Id * User, email d.2 = e) (all_users db) = None ↔
  ∀ j v, userStore db !! j = Some v → email v ≠ e.
Proof.
  rewrite list_find_None, Forall_forall. split.
  - intros H j v Hj. apply (H (j, v)). by apply elem_of_map_to_list.
  - intros H [j v] Hin. apply (H j v). by apply elem_of_map_to_list.
Qed.

(** X12: a registration with a well-formed email that no user has, as
    sent or normalised, and a password of five characters at least once
    trimmed, answers 201 with a new id and stores exactly one new user
    under it: the normalised email, the hash (cost 12) of the trimmed
    password, the two names, role USER and no post. *)
Theorem register_creates_user {libs : Libraries} (req : Request) (db : Db) :
  reachable db = true →
  validationErrors req = [] →
  isEmail (body_email req) = true →
  5 ≤ String.length (trim (body_password req)) →
  (∀ j v, userStore db !! j = Some v →
     email v ≠ body_email req ∧ email v ≠ normalizeEmail (body_email req)) →
  let n := new_user_id db in
  let u := mkUser (normalizeEmail (body_email req))
             (bcrypt_hash (trim (body_password req)) 12)
             (body_firstName req) (body_lastName req) USER [] in
  userStore db !! n = None ∧
  dispatch PUT_auth_register req db
  = (Responded 201 (registered_body "A user was created." n),
     mkDb true (postStore db) (<[n := u]> (userStore db))).
Proof.
  intros Hr Hv Hmail Hpw Hnew n u. split; [apply new_user_id_fresh|].
  simpl. unfold register.
  rewrite validate_register_ok by (try done; intros j v Hj; by apply (Hnew j v)).
  simpl. unfold try_catch. rewrite bind_run. unfold User_create. rewrite Hr.
  rewrite (proj2 (list_find_email_None db (normalizeEmail (body_email req))))
    by (intros j v Hj; by apply (Hnew j v)).
  simpl. unfold set_userStore. simpl. by rewrite Hr.
Qed.

(** Witness for X12. *)
Lemma register_creates_user_witness :
  reachable sample_db = true ∧
  validationErrors sample_registration = [] ∧
  isEmail (Libraries:=sample_libs) (body_email sample_registration) = true ∧
  5 ≤ String.length (trim (body_password sample_registration)) ∧
  dispatch (libs:=sample_libs) PUT_auth_register sample_registration sample_db
  = (Responded 201 (registered_body "A user was created." (new_user_id sample_db)),
     mkDb true (postStore sample_db)
       (<[new_user_id sample_db := mkUser "new@x.com" "$2a$secret" "N" "C" USER []]>
          (userStore sample_db))).
Proof.
  assert (5 ≤ String.length (trim (body_password sample_registration))) as Hpw
    by (vm_compute; lia).
  split; [reflexivity|]. split; [reflexivity|]. split; [reflexivity|].
  split; [exact Hpw|].
  apply (register_creates_user (libs:=sample_libs) sample_registration sample_db
           eq_refl eq_refl eq_refl Hpw).
  intros j v [[-> ->]|[-> ->]]%sample_db_users; split; intros Hmail; discriminate Hmail.
Defined.

(** X13: after a registration that answered, the login with the
    normalised email and the trimmed password answers 200 with the id the
    registration returned, provided that the hash comparison accepts a
    password against its own hash. *)
Theorem register_then_login {libs : Libraries} (req : Request) (db : Db)
    (s : nat) (b : Body) (db1 : Db) :
  (∀ pw, bcrypt_compare pw (bcrypt_hash pw 12) = true) →
  dispatch PUT_auth_register req db = (Responded s b, db1) →
  let e := normalizeEmail (body_email req) in
  let pw := trim (body_password req) in
  ∃ i, s = 201 ∧ b = registered_body "A user was created." i ∧
       dispatch POST_auth_login (with_credentials e pw req) db1
       = (Responded 200 (login_body (jwt_sign e i) i), db1).
Proof.
  intros Hbcrypt Hreg e pw. simpl in Hreg.
  destruct (register_cases (validate_register req db) db)
    as [(err & Herr & _)|(Hr & Hv & Hf & Heq)].
  - by rewrite Hreg in Herr.
  - rewrite Heq in Hreg. injection Hreg as <- <- <-.
    exists (new_user_id db). split; [done|]. split; [done|].
    pose proof (proj1 (list_find_email_None db _) Hf) as Hnone. simpl in Hnone.
    set (u := mkUser e (bcrypt_hash pw 12) (body_firstName req) (body_lastName req) USER []).
    destruct (login_spec (with_credentials e pw req)
                (set_userStore (insert (new_user_id db) u) db) Hr) as (_ & Hlogin & _).
    etransitivity; [apply (Hlogin (new_user_id db) u)|].
    + simpl. apply lookup_insert_eq.
    + done.
    + intros j v. simpl. destruct (decide (new_user_id db = j)) as [<-|Hne]; [done|].
      rewrite lookup_insert_ne by done. intros Hj He. by destruct (Hnone j v Hj).
    + simpl. by rewrite Hbcrypt.
Qed.

(** Witness for X13. *)
Lemma register_then_login_witness :
  (∀ pw, bcrypt_compare (Libraries:=sample_libs) pw (bcrypt_hash (Libraries:=sample_libs) pw 12) = true) ∧
  ∃ i, 201 = 201 ∧
       registered_body "A user was created." (new_user_id sample_db)
       = registered_body "A user was created." i ∧
       dispatch (libs:=sample_libs) POST_auth_login
         (with_credentials (normalizeEmail (Libraries:=sample_libs) (body_email sample_registration))
            (trim (body_password sample_registration)) sample_registration)
         (dispatch (libs:=sample_libs) PUT_auth_register sample_registration sample_db).2
       = (Responded 200
            (login_body (jwt_sign (Libraries:=sample_libs) (normalizeEmail (Libraries:=sample_libs) (body_email sample_registration)) i) i),
          (dispatch (libs:=sample_libs) PUT_auth_register sample_registration sample_db).2).
Proof.
  assert (∀ pw, bcrypt_compare (Libraries:=sample_libs) pw (bcrypt_hash (Libraries:=sample_libs) pw 12) = true)
    as Hbcrypt by (intros pw; simpl; by apply bool_decide_eq_true).
  split; [exact Hbcrypt|].
  apply (register_then_login (libs:=sample_libs) sample_registration sample_db 201
           (registered_body "A user was created." (new_user_id sample_db)) _ Hbcrypt).
  vm_compute. reflexivity.
Defined.

(** ** Reading after writing *)

Lemma getPost_run (req : Request) (db : Db) :
  reachable db = true →
  getPost req db =
  (match postStore db !! params_postId req with
   | Some p => Responded 200 (post_body "Post fetched" (params_postId req, p))
   | None => Forwarded (httpError "Could not find post." 404)
   end, db).
Proof.
  intros Hr. unfold getPost, try_catch. run.
  by destruct (postStore db !! params_postId req).
Qed.

(** X14: a post that was just created can be fetched under the id of the
    answer, pending; a post that was just edited is fetched with the new
    texts and allowed; a post that was just deleted is not found any
    more, and deleting it again fails with 404. *)
Theorem reads_after_writes (req : Request) (db : Db) (s : nat) (b : Body) (db1 : Db) :
  (createPost req db = (Responded s b, db1) →
   ∃ n i name,
     let p := mkPost (body_title req) (body_content req) i false in
     b = created_body "Post created successfully!" (n, p) i name ∧
     userId req = Some i ∧ postStore db !! n = None ∧
     getPost (with_postId n req) db1
     = (Responded 200 (post_body "Post fetched" (n, p)), db1)) ∧
  (updatePost req db = (Responded s b, db1) →
   ∃ p, b = post_body "Post updated!" (params_postId req, p) ∧
        title p = body_title req ∧ content p = body_content req ∧ allowed p = true ∧
        getPost req db1
        = (Responded 200 (post_body "Post fetched" (params_postId req, p)), db1)) ∧
  (deletePost req db = (Responded s b, db1) →
   getPost req db1 = (Forwarded (httpError "Could not find post." 404), db1) ∧
   deletePost req db1
   = (Forwarded (httpError "Could not find post to delete." 404), db1)).
Proof.
  split; [|split]; intros Hrun.
  - destruct (createPost_cases req db)
      as [(err & Herr & _)|[(i & Hr & Hv & Hi & Hu & Heq)|(i & u & Hr & Hv & Hi & Hu & Heq)]].
    + by rewrite Hrun in Herr.
    + rewrite Heq in Hrun. discriminate Hrun.
    + rewrite Heq in Hrun. injection Hrun as <- <- <-.
      exists (new_post_id db), i, (firstName u +:+ " " +:+ lastName u).
      split; [done|]. split; [done|]. split; [apply new_post_id_fresh|].
      rewrite getPost_run by done. simpl. by rewrite lookup_insert_eq.
  - destruct (updatePost_cases req db) as [(err & Herr & _)|(p & Hr & Hv & Hp & Hi & Heq)].
    + by rewrite Hrun in Herr.
    + rewrite Heq in Hrun. injection Hrun as <- <- <-.
      eexists. split; [done|]. repeat (split; [done|]).
      rewrite getPost_run by done. simpl. by rewrite lookup_insert_eq.
  - destruct (deletePost_cases req db)
      as [(err & Herr & _)|(p & Hr & Hp & Hi & [[Ha Heq]|(u & Hu & Heq)])].
    + by rewrite Hrun in Herr.
    + rewrite Heq in Hrun. discriminate Hrun.
    + rewrite Heq in Hrun. injection Hrun as <- <- <-. split.
      * rewrite getPost_run by done. simpl. by rewrite lookup_delete_eq.
      * apply deletePost_no_post; [done|]. simpl. apply lookup_delete_eq.
Qed.

(** Witness for X14. *)
Lemma reads_after_writes_witness :
  deletePost sample_delete sample_db
  = (Responded 200 (post_body "Post deleted!" ("p1", sample_post)),
     (deletePost sample_delete sample_db).2) ∧
  getPost sample_delete (deletePost sample_delete sample_db).2
  = (Forwarded (httpError "Could not find post." 404),
     (deletePost sample_delete sample_db).2) ∧
  deletePost sample_delete (deletePost sample_delete sample_db).2
  = (Forwarded (httpError "Could not find post to delete." 404),
     (deletePost sample_delete sample_db).2).
Proof.
  assert (deletePost sample_delete sample_db
          = (Responded 200 (post_body "Post deleted!" ("p1", sample_post)),
             (deletePost sample_delete sample_db).2)) as Hrun
    by (vm_compute; reflexivity).
  split; [exact Hrun|].
  destruct (reads_after_writes sample_delete sample_db 200
              (post_body "Post deleted!" ("p1", sample_post))
              (deletePost sample_delete sample_db).2) as (_ & _ & Hdelete).
  exact (Hdelete Hrun).
Defined.

(** ** When the writing handlers succeed *)

(** X15: the creation of a post answers exactly when the request is
    valid, the store reachable and the caller a stored user.  When the
    caller is not a stored user the post is written all the same, before
    the 500 error, and no post list names it. *)
Theorem createPost_outcomes (req : Request) (db : Db) :
  ((∃ s b, (createPost req db).1 = Responded s b) ↔
   validationErrors req = [] ∧ reachable db = true ∧
   ∃ i, userId req = Some i ∧ is_Some (userStore db !! i)) ∧
  (validationErrors req = [] → reachable db = true →
   ∀ i, userId req = Some i → userStore db !! i = None →
     outcome_status (createPost req db).1 = 500 ∧
     postStore (createPost req db).2 !! new_post_id db
     = Some (mkPost (body_title req) (body_content req) i false) ∧
     userStore (createPost req db).2 = userStore db).
Proof.
  split.
  - destruct (createPost_cases req db)
      as [(err & Herr & _)|[(i & Hr & Hv & Hi & Hu & Heq)|(i & u & Hr & Hv & Hi & Hu & Heq)]].
    + split.
      * intros (s & b & Hs). by rewrite Hs in Herr.
      * intros (Hv & Hr & i & Hi & [u Hu]).
        rewrite (createPost_created req db i u) in Herr by done. discriminate Herr.
    + rewrite Heq. split.
      * intros (s & b & Hs). discriminate Hs.
      * intros (_ & _ & j & Hj & [u' Hu']). congruence.
    + rewrite Heq. split; [|by eauto]. intros _. repeat (split; [done|]). eauto.
  - intros Hv Hr i Hi Hu. rewrite (createPost_unknown_author req db i) by done.
    simpl. by rewrite lookup_insert_eq.
Qed.

(** Witness for X15. *)
Lemma createPost_outcomes_witness :
  (validationErrors sample_submission = [] ∧ reachable sample_db = true ∧
   ∃ i, userId sample_submission = Some i ∧ is_Some (userStore sample_db !! i)) ∧
  ∃ s b, (createPost sample_submission sample_db).1 = Responded s b.
Proof.
  assert (validationErrors sample_submission = [] ∧ reachable sample_db = true ∧
          ∃ i, userId sample_submission = Some i ∧ is_Some (userStore sample_db !! i))
    as Hok.
  { split; [reflexivity|]. split; [reflexivity|]. exists "u1". split; [reflexivity|].
    exists sample_author. reflexivity. }
  split; [exact Hok|].
  destruct (createPost_outcomes sample_submission sample_db) as [Hiff _].
  exact (proj2 Hiff Hok).
Defined.

(** X16: the deletion fails with 404 when the post does not exist and
    with 403 when the caller is not its author, whatever the role of the
    caller; it answers exactly when the post exists, the caller is its
    author and the author is a stored user; when the author is not stored
    the post is removed all the same, before the 500 error. *)
Theorem deletePost_outcomes (req : Request) (db : Db) :
  reachable db = true →
  (postStore db !! params_postId req = None →
   deletePost req db = (Forwarded (httpError "Could not find post to delete." 404), db)) ∧
  (∀ p, postStore db !! params_postId req = Some p →
     (userId req ≠ Some (author p) →
      deletePost req db = (Forwarded (httpError "Not authenticated." 403), db)) ∧
     (userId req = Some (author p) → userStore db !! author p = None →
      outcome_status (deletePost req db).1 = 500 ∧
      (deletePost req db).2 = mkDb true (delete (params_postId req) (postStore db))
                                (userStore db))) ∧
  ((∃ s b, (deletePost req db).1 = Responded s b) ↔
   ∃ p, postStore db !! params_postId req = Some p ∧ userId req = Some (author p) ∧
        is_Some (userStore db !! author p)).
Proof.
  intros Hr. split; [|split].
  - intros Hp. by apply deletePost_no_post.
  - intros p Hp. split.
    + intros Ha. by apply (deletePost_not_author req db p).
    + intros Ha Hu. rewrite (deletePost_unknown_author req db p) by done.
      unfold set_postStore. simpl. by rewrite Hr.
  - destruct (postStore db !! params_postId req) as [p|] eqn:Hp.
    + destruct (decide (Some (author p) = userId req)) as [Ha|Ha].
      * destruct (userStore db !! author p) as [u|] eqn:Hu.
        -- rewrite (deletePost_deleted req db p u) by done. split; [|by eauto].
           intros _. exists p. by eauto.
        -- rewrite (deletePost_unknown_author req db p) by done. split.
           ++ intros (s & b & Hs). discriminate Hs.
           ++ intros (q & [= <-] & _ & [u Hu']). congruence.
      * rewrite (deletePost_not_author req db p) by done. split.
        -- intros (s & b & Hs). discriminate Hs.
        -- intros (q & [= <-] & Hq & _). congruence.
    + rewrite deletePost_no_post by done. split.
      * intros (s & b & Hs). discriminate Hs.
      * intros (q & Hq & _). discriminate Hq.
Qed.

(** Witness for X16. *)
Lemma deletePost_outcomes_witness :
  reachable sample_db = true ∧
  postStore sample_db !! params_postId sample_foreign_delete = Some sample_post ∧
  userId sample_foreign_delete ≠ Some (author sample_post) ∧
  deletePost sample_foreign_delete sample_db
  = (Forwarded (httpError "Not authenticated." 403), sample_db).
Proof.
  assert (userId sample_foreign_delete ≠ Some (author sample_post)) as Hother
    by (intros Heq; discriminate Heq).
  split; [reflexivity|]. split; [reflexivity|]. split; [exact Hother|].
  destruct (deletePost_outcomes sample_foreign_delete sample_db eq_refl) as (_ & Hfound & _).
  destruct (Hfound sample_post eq_refl) as [Hforbidden _].
  exact (Hforbidden Hother).
Defined.

(** X17: the approval answers exactly when the store is reachable, the
    viewer a stored ADMIN, the post exists and its author is a stored
    user; for an ADMIN a post that does not exist gives the 500 error,
    not 404, and nothing is written. *)
Theorem allowPostRequest_outcomes (req : Request) (db : Db) :
  ((∃ s b, (allowPostRequest req db).1 = Responded s b) ↔
   reachable db = true ∧
   (∃ i u, userId req = Some i ∧ userStore db !! i = Some u ∧ role u = ADMIN) ∧
   (∃ p, postStore db !! params_postId req = Some p ∧ is_Some (userStore db !! author p))) ∧
  (reachable db = true →
   (∃ i u, userId req = Some i ∧ userStore db !! i = Some u ∧ role u = ADMIN) →
   postStore db !! params_postId req = None →
   outcome_status (allowPostRequest req db).1 = 500 ∧ (allowPostRequest req db).2 = db).
Proof.
  split.
  - destruct (reachable db) eqn:Hr.
    2:{ rewrite allowPostRequest_unreachable by done. split.
        - intros (s & b & Hs). discriminate Hs.
        - intros (Hf & _). discriminate Hf. }
    destruct (i ← userId req; userStore db !! i) as [u|] eqn:Hv.
    2:{ rewrite allowPostRequest_unknown_viewer by done. split.
        - intros (s & b & Hs). discriminate Hs.
        - intros (_ & (i & u & Hi & Hu & _) & _). rewrite Hi in Hv. simpl in Hv. congruence. }
    destruct (userId req) as [i|] eqn:Hi; [simpl in Hv|done].
    destruct (decide (role u = ADMIN)) as [Hadm|Hadm].
    2:{ rewrite (allowPostRequest_not_admin req db i u) by done. split.
        - intros (s & b & Hs). discriminate Hs.
        - intros (_ & (j & v & [= <-] & Hu & Hrole) & _). congruence. }
    destruct (postStore db !! params_postId req) as [p|] eqn:Hp.
    2:{ rewrite (allowPostRequest_no_post req db i u) by done. split.
        - intros (s & b & Hs). discriminate Hs.
        - intros (_ & _ & (q & Hq & _)). discriminate Hq. }
    destruct (userStore db !! author p) as [a|] eqn:Ha.
    + rewrite (allowPostRequest_admin req db i u p a) by done. split; [|by eauto].
      intros _. split; [done|]. split; [by eauto|]. exists p. by eauto.
    + rewrite (allowPostRequest_no_author req db i u p) by done. split.
      * intros (s & b & Hs). discriminate Hs.
      * intros (_ & _ & (q & [= <-] & [a Ha'])). congruence.
  - intros Hr (i & u & Hi & Hu & Hadm) Hp.
    by rewrite (allowPostRequest_no_post req db i u).
Qed.

(** Witness for X17. *)
Lemma allowPostRequest_outcomes_witness :
  reachable sample_db = true ∧
  (∃ i u, userId (with_postId "p9" sample_approval) = Some i ∧
          userStore sample_db !! i = Some u ∧ role u = ADMIN) ∧
  postStore sample_db !! params_postId (with_postId "p9" sample_approval) = None ∧
  outcome_status (allowPostRequest (with_postId "p9" sample_approval) sample_db).1 = 500 ∧
  (allowPostRequest (with_postId "p9" sample_approval) sample_db).2 = sample_db.
Proof.
  assert (∃ i u, userId (with_postId "p9" sample_approval) = Some i ∧
                 userStore sample_db !! i = Some u ∧ role u = ADMIN) as Hadmin.
  { exists "u0", sample_admin. split; [reflexivity|]. split; reflexivity. }
  split; [reflexivity|]. split; [exact Hadmin|]. split; [reflexivity|].
  destruct (allowPostRequest_outcomes (with_postId "p9" sample_approval) sample_db)
    as [_ Hmissing].
  exact (Hmissing eq_refl Hadmin eq_refl).
Defined.



(** ** From submission to publication *)

(** X19: a post that was just created is on no page of the feed of an
    anonymous viewer or of a USER; once the approval, or the edit by its
    author, has answered, the post is allowed and is on a page of the feed
    of every viewer that is not a BLOGGER. *)
Theorem moderation_gate (req : Request) (db : Db) (s : nat) (b : Body) (db1 : Db) :
  (createPost req db = (Responded s b, db1) →
   ∃ n p, postStore db1 !! n = Some p ∧ postStore db !! n = None ∧ allowed p = false ∧
     ∀ req' v s' m posts total,
       viewer db1 (userId req') = Some v → v = Anonymous ∨ v = Member USER →
       (getPosts req' db1).1 = Responded s' (posts_body m posts total) →
       ∀ q, (n, q) ∉ posts) ∧
  ((allowPostRequest req db = (Responded s b, db1) ∨
    updatePost req db = (Responded s b, db1)) →
   ∃ p, postStore db1 !! params_postId req = Some p ∧ allowed p = true ∧
     ∀ req' v, viewer db1 (userId req') = Some v → v ≠ Member BLOGGER →
       ∃ (pg : positive) posts total,
         getPosts (with_page (Some pg) req') db1
         = (Responded 200 (posts_body "Fetched posts successfully!" posts total), db1) ∧
         (params_postId req, p) ∈ posts).
Proof.
  split.
  - intros Hrun.
    destruct (createPost_cases req db)
      as [(err & Herr & _)|[(i & Hr & Hv & Hi & Hu & Heq)|(i & u & Hr & Hv & Hi & Hu & Heq)]].
    + by rewrite Hrun in Herr.
    + rewrite Heq in Hrun. discriminate Hrun.
    + rewrite Heq in Hrun. injection Hrun as <- <- <-.
      exists (new_post_id db), (mkPost (body_title req) (body_content req) i false).
      simpl. rewrite lookup_insert_eq. split; [done|].
      split; [apply new_post_id_fresh|]. split; [done|].
      intros req' v s' m posts total Hviewer Hrole Hlist q Hq.
      pose proof (λ H, listed_is_visible req' _ v s' m posts total _ H Hviewer Hlist Hq)
        as Hshown.
      destruct (Hshown eq_refl) as [Hlook Hvis].
      simpl in Hlook. rewrite lookup_insert_eq in Hlook. injection Hlook as <-.
      by destruct Hrole as [-> | ->].
  - assert (∀ p, reachable db1 = true → postStore db1 !! params_postId req = Some p →
              allowed p = true →
              ∀ req' v, viewer db1 (userId req') = Some v → v ≠ Member BLOGGER →
                ∃ (pg : positive) posts total,
                  getPosts (with_page (Some pg) req') db1
                  = (Responded 200 (posts_body "Fetched posts successfully!" posts total),
                     db1) ∧
                  (params_postId req, p) ∈ posts) as Hlisted.
    { intros p Hr Hp Hallowed req' v Hviewer Hrole.
      apply (listed_on_some_page req' db1 v); try done.
      destruct v as [|[]]; simpl; try done. }
    intros [Hrun|Hrun].
    + destruct (allowPostRequest_cases req db)
        as [(err & Herr & _)
           |(i & u & p & Hr & Hi & Hu & Hadm & Hp & [[Ha Heq]|(a & Ha & Heq)])].
      * by rewrite Hrun in Herr.
      * rewrite Heq in Hrun. discriminate Hrun.
      * rewrite Heq in Hrun. injection Hrun as <- <- <-.
        exists (set_allowed true p). simpl. rewrite lookup_insert_eq.
        split; [done|]. split; [done|]. apply Hlisted; try done.
        simpl. apply lookup_insert_eq.
    + destruct (updatePost_cases req db) as [(err & Herr & _)|(p & Hr & Hv & Hp & Hi & Heq)].
      * by rewrite Hrun in Herr.
      * rewrite Heq in Hrun. injection Hrun as <- <- <-.
        eexists. simpl. rewrite lookup_insert_eq. split; [done|]. split; [done|].
        apply Hlisted; try done. simpl. apply lookup_insert_eq.
Qed.

(** Witness for X19. *)
Lemma moderation_gate_witness :
  allowPostRequest sample_approval sample_db
  = (Responded 200 (post_body "Post request allowed successfully!"
                      ("p1", set_allowed true sample_post)), sample_published_db) ∧
  ∃ p, postStore sample_published_db !! params_postId sample_approval = Some p ∧
       allowed p = true ∧
       ∀ req' v, viewer sample_published_db (userId req') = Some v → v ≠ Member BLOGGER →
         ∃ (pg : positive) posts total,
           getPosts (with_page (Some pg) req') sample_published_db
           = (Responded 200 (posts_body "Fetched posts successfully!" posts total),
              sample_published_db) ∧
           (params_postId sample_approval, p) ∈ posts.
Proof.
  assert (allowPostRequest sample_approval sample_db
          = (Responded 200 (post_body "Post request allowed successfully!"
                              ("p1", set_allowed true sample_post)), sample_published_db))
    as Hrun by (vm_compute; reflexivity).
  split; [exact Hrun|].
  destruct (moderation_gate sample_approval sample_db 200
              (post_body "Post request allowed successfully!"
                 ("p1", set_allowed true sample_post)) sample_published_db)
    as [_ Hpublished].
  exact (Hpublished (or_introl Hrun)).
Defined.

(** ** The same registration twice *)

Lemma validate_register_passed {libs : Libraries} (req : Request) (db : Db) :
  validationErrors (validate_register req db) = [] →
  validationErrors req = [] ∧ isEmail (body_email req) = true ∧
  5 ≤ String.length (trim (body_password req)) ∧
  ∀ j v, userStore db !! j = Some v → email v ≠ body_email req.
Proof.
  unfold validate_register. simpl. intros Heq.
  apply app_eq_nil in Heq as [Hreq Heq]. apply app_eq_nil in Heq as [Hmail Heq].
  apply app_eq_nil in Heq as [Hfind Hpw].
  split; [done|]. split; [by destruct (isEmail (body_email req))|]. split.
  - unfold isLength_min5 in Hpw.
    destruct (bool_decide (5 ≤ String.length (trim (body_password req)))) eqn:E; [|done].
    by eapply bool_decide_eq_true_1.
  - unfold User_findOne_email, store_op in Hfind. destruct (reachable db); [|done].
    simpl in Hfind.
    destruct (list_find _ _) as [[n d]|] eqn:Hf; [done|].
    by apply list_find_email_None.
Qed.

(** C7: the same registration sent twice.  Once a registration has
    answered, the stored email is the normalised one, while the
    validation of the second request looks up the email as it was sent:
    when the two differ the second request passes the validation and
    fails at the save of the user, with the duplicate key error and
    status 500, not with the validation error 422. *)
Theorem register_same_request_twice {libs : Libraries} (req : Request) (db : Db)
    (s : nat) (b : Body) (db1 : Db) :
  dispatch PUT_auth_register req db = (Responded s b, db1) →
  normalizeEmail (body_email req) ≠ body_email req →
  (∃ i u, userStore db1 !! i = Some u ∧ email u = normalizeEmail (body_email req)) ∧
  dispatch PUT_auth_register req db1
  = (Forwarded (mkError "E11000 duplicate key error" (Some 500) []), db1) ∧
  outcome_status (dispatch PUT_auth_register req db1).1 = 500.
Proof.
  intros Hreg Hnorm. simpl in Hreg.
  destruct (register_cases (validate_register req db) db)
    as [(err & Herr & _)|(Hr & Hv & Hf & Heq)]; [by rewrite Hreg in Herr|].
  rewrite Heq in Hreg. injection Hreg as <- <- <-.
  destruct (validate_register_passed req db Hv) as (Hreq & Hmail & Hpw & Hraw).
  set (n := new_user_id db).
  set (u := mkUser (normalizeEmail (body_email req)) (bcrypt_hash (trim (body_password req)) 12)
              (body_firstName req) (body_lastName req) USER []).
  assert (userStore (set_userStore (insert n u) db) !! n = Some u) as Hnew
    by apply lookup_insert_eq.
  split; [by exists n, u|].
  assert (dispatch PUT_auth_register req (set_userStore (insert n u) db)
          = (Forwarded (mkError "E11000 duplicate key error" (Some 500) []),
             set_userStore (insert n u) db)) as Hsecond.
  { simpl. unfold register.
    rewrite validate_register_ok; try done.
    - simpl. unfold try_catch. rewrite bind_run. unfold User_create. simpl. rewrite Hr.
      match goal with
      | |- context [list_find ?P ?l] => destruct (list_find P l) as [d|] eqn:Hfind
      end; [done|].
      exfalso. apply (proj1 (list_find_email_None _ _) Hfind n u Hnew). reflexivity.
    - intros j v. simpl. destruct (decide (n = j)) as [<-|Hne].
      + rewrite lookup_insert_eq. intros [= <-]. done.
      + rewrite lookup_insert_ne by done. apply Hraw. }
  split; [exact Hsecond|]. by rewrite Hsecond.
Qed.

(** Witness for C7: a registration with the address A@x.com, sent twice
    to an empty store. *)
Lemma register_same_request_twice_witness :
  dispatch (libs:=lowercase_libs) PUT_auth_register capital_registration sample_empty_db
  = (Responded 201 (registered_body "A user was created." "0"),
     mkDb true ∅ {[ "0" := mkUser "a@x.com" "$2a$secret" "A" "B" USER [] ]}) ∧
  normalizeEmail (Libraries:=lowercase_libs) (body_email capital_registration)
  ≠ body_email capital_registration ∧
  dispatch (libs:=lowercase_libs) PUT_auth_register capital_registration
    (mkDb true ∅ {[ "0" := mkUser "a@x.com" "$2a$secret" "A" "B" USER [] ]})
  = (Forwarded (mkError "E11000 duplicate key error" (Some 500) []),
     mkDb true ∅ {[ "0" := mkUser "a@x.com" "$2a$secret" "A" "B" USER [] ]}).
Proof.
  assert (dispatch (libs:=lowercase_libs) PUT_auth_register capital_registration
            sample_empty_db
          = (Responded 201 (registered_body "A user was created." "0"),
             mkDb true ∅ {[ "0" := mkUser "a@x.com" "$2a$secret" "A" "B" USER [] ]}))
    as Hfirst by (vm_compute; reflexivity).
  assert (normalizeEmail (Libraries:=lowercase_libs) (body_email capital_registration)
          ≠ body_email capital_registration) as Hnorm
    by (intros Heq; vm_compute in Heq; discriminate Heq).
  split; [exact Hfirst|]. split; [exact Hnorm|].
  exact (proj1 (proj2 (register_same_request_twice (libs:=lowercase_libs)
                         capital_registration sample_empty_db _ _ _ Hfirst Hnorm))).
Defined.
